(** * The DASTCOM5 reader of sbpy ([sbpy/data/utils/dastcom5.py])

    A shallow embedding of the fixed-layout binary reader: the two record
    schemas, header reading, record resolution, the name search over the
    text index, the per-record orbit table, the bulk view and the archive
    download.  Python values are modelled as follows.

    - [bytes] and file contents are [list byte]; [str] is [string].
    - Python [int] is [Z] (unbounded).
    - A floating-point field is carried as its IEEE-754 bit pattern (an
      unsigned little-endian [Z]): numpy copies these bytes unchanged.
    - Exceptions are the constructors of [exn]; a computation that may raise
      returns a [result].
    - The file system is a finite map from paths to contents and a finite
      set of directories, threaded explicitly where it is written.
    - What belongs to the libraries stays open: astropy's [Time], [Table]
      and [vstack], and the container format of a zip file, are
      parameters of the functions that call them. *)

From Stdlib Require Import ZArith List String Ascii Lia Bool.
From Stdlib Require Import Strings.Byte.
From coqutil Require Import Byte Word.LittleEndianList.
From stdpp Require Import base gmap strings list.

Local Open Scope Z_scope.

(** ** Python: exceptions, [int()], [os.path.join], text files *)

Module Py.

(** The messages of [re.error] that the modelled pattern fragment can raise. *)
Inductive re_why :=
| nothing_to_repeat
| multiple_repeat
| missing_paren
| unbalanced_paren
| bad_escape.

Inductive exn :=
| FileNotFoundError
| IsADirectoryError
| NotADirectoryError
| FileExistsError
| OSError
| IndexError
| ValueError
| TypeError
| re_error (why : re_why)
| URLError
| BadZipFile.

Inductive result (A : Type) :=
| Ok (a : A)
| Raise (e : exn).
Arguments Ok {A} a.
Arguments Raise {A} e.

#[global] Instance result_ret : MRet result := @Ok.
#[global] Instance result_bind : MBind result :=
  λ A B f m, match m with Ok a => f a | Raise e => Raise e end.
#[global] Instance result_fmap : FMap result :=
  λ A B f m, match m with Ok a => Ok (f a) | Raise e => Raise e end.

Definition raises {A} (m : result A) : Prop :=
  match m with Ok _ => False | Raise _ => True end.

(** [Py_ISSPACE]: the bytes that [int()] skips around a literal. *)
Definition is_space (b : byte) : bool :=
  let n := Byte.to_N b in (((9 <=? n) && (n <=? 13)) || (n =? 32))%N.

Definition is_digit (b : byte) : bool :=
  let n := Byte.to_N b in ((48 <=? n) && (n <=? 57))%N.

Definition digit_val (b : byte) : Z := Z.of_N (Byte.to_N b) - 48.

Fixpoint lstrip_space (l : list byte) : list byte :=
  match l with
  | b :: l' => if is_space b then lstrip_space l' else l
  | [] => []
  end.

(** The tail of a decimal literal: digits, each optionally preceded by one
    underscore. *)
Fixpoint int_digits (acc : Z) (l : list byte) : Z * list byte :=
  match l with
  | c :: l' =>
      if is_digit c then int_digits (10 * acc + digit_val c) l'
      else if Byte.eqb c "_"%byte then
        match l' with
        | d :: l'' =>
            if is_digit d then int_digits (10 * acc + digit_val d) l''
            else (acc, l)
        | [] => (acc, l)
        end
      else (acc, l)
  | [] => (acc, [])
  end.

(** [int(b)] for a [bytes] object, base 10: optional surrounding
    whitespace, optional sign, digits with single underscores between them;
    anything else is a [ValueError]. *)
Definition int (s : list byte) : result Z :=
  let s1 := lstrip_space s in
  let '(neg, s2) :=
    match s1 with
    | b :: r =>
        if Byte.eqb b "-"%byte then (true, r)
        else if Byte.eqb b "+"%byte then (false, r)
        else (false, s1)
    | [] => (false, [])
    end in
  match s2 with
  | d :: r =>
      if is_digit d then
        let '(v, rest) := int_digits (digit_val d) r in
        match lstrip_space rest with
        | [] => Ok (if neg : bool then - v else v)
        | _ :: _ => Raise ValueError
        end
      else Raise ValueError
  | [] => Raise ValueError
  end.

(** [posixpath.join] for two components. *)
Fixpoint endswith_sep (s : string) : bool :=
  match s with
  | EmptyString => false
  | String c EmptyString => Ascii.eqb c "/"%char
  | String _ s' => endswith_sep s'
  end.

Definition startswith_sep (s : string) : bool :=
  match s with
  | String c _ => Ascii.eqb c "/"%char
  | EmptyString => false
  end.

Definition join (a b : string) : string :=
  if startswith_sep b then b
  else if String.eqb a "" || endswith_sep a then a +:+ b
  else a +:+ "/" +:+ b.

(** [s.split("/")] and ["/".join(parts)]. *)
Fixpoint split_from (part rest : list ascii) : list string :=
  match rest with
  | [] => [string_of_list_ascii (rev part)]
  | c :: rest' =>
      if Ascii.eqb c "/"%char
      then string_of_list_ascii (rev part) :: split_from [] rest'
      else split_from (c :: part) rest'
  end.

Definition split_sep (s : string) : list string :=
  split_from [] (list_ascii_of_string s).

Fixpoint join_sep (parts : list string) : string :=
  match parts with
  | [] => ""
  | x :: parts' =>
      match parts' with
      | [] => x
      | _ :: _ => x +:+ "/" +:+ join_sep parts'
      end
  end.

(** [posixpath.normpath]: empty and "." components go, a ".." takes the
    component before it with it (at the root it just goes), and exactly two
    leading slashes are kept. *)
Definition normpath (path : string) : string :=
  if String.eqb path "" then "."
  else
    let initial_slashes : nat :=
      if startswith_sep path then
        if String.prefix "//" path && negb (String.prefix "///" path)
        then 2%nat else 1%nat
      else 0%nat in
    let new_comps :=
      fold_left
        (λ (new_comps : list string) (comp : string),
           if String.eqb comp "" || String.eqb comp "." then new_comps
           else if negb (String.eqb comp "..")
                   || (Nat.eqb initial_slashes 0%nat
                       && bool_decide (new_comps = []))
                   || bool_decide (last new_comps = Some "..")
           then new_comps ++ [comp]
           else removelast new_comps)
        (split_sep path) [] in
    let path' :=
      string_of_list_ascii (repeat "/"%char initial_slashes)
      +:+ join_sep new_comps in
    if String.eqb path' "" then "." else path'.

(** [posixpath.dirname]: what stands before the last separator, without
    the separators at its end unless it consists of separators only. *)
Fixpoint lstrip_sep (l : list ascii) : list ascii :=
  match l with
  | c :: l' => if Ascii.eqb c "/"%char then lstrip_sep l' else l
  | [] => []
  end.

Fixpoint after_name (l : list ascii) : list ascii :=
  match l with
  | c :: l' => if Ascii.eqb c "/"%char then l else after_name l'
  | [] => []
  end.

Definition dirname (p : string) : string :=
  let head := after_name (rev (list_ascii_of_string p)) in
  string_of_list_ascii
    (rev (if forallb (Ascii.eqb "/"%char) head then head
          else lstrip_sep head)).

(** Python slices [l[start:stop]] with the usual clamping; [None] is an
    omitted bound and a negative bound counts from the end. *)
Definition slice_bound (len : Z) (default : Z) (b : option Z) : Z :=
  match b with
  | None => default
  | Some i => if i <? 0 then Z.max 0 (len + i) else Z.min i len
  end.

Definition slice {A} (start stop : option Z) (l : list A) : list A :=
  let len := Z.of_nat (length l) in
  let lo := slice_bound len 0 start in
  let hi := slice_bound len len stop in
  take (Z.to_nat (hi - lo)) (drop (Z.to_nat lo) l).

(** Iterating a file opened in text mode yields its lines, each with its
    terminator; universal newlines turn a carriage return, alone or before a
    line feed, into a line feed.  The text is taken as ASCII. *)
Fixpoint universal_newlines (l : list ascii) : list ascii :=
  match l with
  | c :: l' =>
      if Ascii.eqb c "013"%char then
        match l' with
        | d :: l'' =>
            if Ascii.eqb d "010"%char then "010"%char :: universal_newlines l''
            else "010"%char :: universal_newlines l'
        | [] => ["010"%char]
        end
      else c :: universal_newlines l'
  | [] => []
  end.

Fixpoint lines_from (cur : list ascii) (l : list ascii) : list string :=
  match l with
  | c :: l' =>
      if Ascii.eqb c "010"%char
      then string_of_list_ascii (rev (c :: cur)) :: lines_from [] l'
      else lines_from (c :: cur) l'
  | [] =>
      match cur with
      | [] => []
      | _ :: _ => [string_of_list_ascii (rev cur)]
      end
  end.

Definition text_lines (content : list byte) : list string :=
  lines_from [] (universal_newlines (map ascii_of_byte content)).

(** [str.casefold] on ASCII text: the upper-case letters are lowered. *)
Definition casefold_char (c : ascii) : ascii :=
  let n := N_of_ascii c in
  if ((65 <=? n) && (n <=? 90))%N then ascii_of_N (n + 32) else c.

Definition casefold (s : string) : string :=
  string_of_list_ascii (map casefold_char (list_ascii_of_string s)).

(** [str.lstrip()] on ASCII text: the white space of [str] is the
    characters 9 to 13, 28 to 31 and the blank. *)
Definition is_str_space (c : ascii) : bool :=
  let n := N_of_ascii c in
  (((9 <=? n) && (n <=? 13)) || ((28 <=? n) && (n <=? 31)) || (n =? 32))%N.

Fixpoint lstrip (l : list ascii) : list ascii :=
  match l with
  | c :: l' => if is_str_space c then lstrip l' else l
  | [] => []
  end.

(** [int(s)] for an ASCII [str]: the characters are read as the bytes of
    the same literal. *)
Definition int_str (s : list ascii) : result Z := int (map byte_of_ascii s).

End Py.

(** ** numpy: structured dtypes, decoding and [fromfile] *)

Module Np.
Import Py.

(** A field is a little-endian two's-complement integer, a little-endian
    IEEE-754 float or a fixed-width byte string, of the given width in
    bytes. *)
Inductive scalar_type :=
| np_int (w : nat)
| np_float (w : nat)
| S_ (w : nat).

Definition int8 := np_int 1.
Definition int16 := np_int 2.
Definition int32 := np_int 4.
Definition float32 := np_float 4.
Definition float64 := np_float 8.

Definition dtype := list (string * scalar_type).

Definition width (t : scalar_type) : nat :=
  match t with np_int w | np_float w | S_ w => w end.

Fixpoint itemsize (d : dtype) : nat :=
  match d with
  | [] => 0
  | (_, t) :: d' => width t + itemsize d'
  end.

Definition names (d : dtype) : list string := map fst d.

(** The first field of a schema that carries a given name. *)
Fixpoint lookup_type (name : string) (d : dtype) : option scalar_type :=
  match d with
  | [] => None
  | (n, t) :: d' => if String.eqb n name then Some t else lookup_type name d'
  end.

(** Values held by arrays and tables.  [VStr] and [VTime] are the Python
    objects that [orbit_from_record] puts next to the numbers. *)
Inductive value :=
| VInt (z : Z)
| VFloat (bits : Z)
| VBytes (b : list byte)
| VStr (s : string)
| VTime (jd_bits : Z) (format scale : string).

(** One element of a structured array, and a one-dimensional array. *)
Definition record := list (string * value).
Definition ndarray := list record.

Definition signed (w : nat) (u : Z) : Z :=
  if u <? 2 ^ (8 * Z.of_nat w - 1) then u else u - 2 ^ (8 * Z.of_nat w).

(** A byte-string scalar loses its trailing NUL bytes. *)
Fixpoint rstrip_nul (l : list byte) : list byte :=
  match l with
  | [] => []
  | b :: l' =>
      match rstrip_nul l' with
      | [] => if Byte.eqb b x00 then [] else [b]
      | r => b :: r
      end
  end.

Definition decode_scalar (t : scalar_type) (bs : list byte) : value :=
  match t with
  | np_int w => VInt (signed w (le_combine bs))
  | np_float _ => VFloat (le_combine bs)
  | S_ _ => VBytes (rstrip_nul bs)
  end.

Fixpoint decode (d : dtype) (bs : list byte) : record :=
  match d with
  | [] => []
  | (n, t) :: d' =>
      (n, decode_scalar t (take (width t) bs)) :: decode d' (drop (width t) bs)
  end.

(** Modelled from the spec: the encoder of a decoded record ("re-encoding it
    with the same schema byte layout"); the repository only reads.  Each
    field is written back at its declared width: integers in two's
    complement, floats as their bit pattern, byte strings padded with NUL. *)
Definition encode_scalar (t : scalar_type) (v : value) : option (list byte) :=
  match t, v with
  | np_int w, VInt z => Some (le_split w z)
  | np_float w, VFloat b => Some (le_split w b)
  | S_ w, VBytes b => Some (take w b ++ replicate (w - length b) x00)
  | _, _ => None
  end.

(** Modelled from the spec: the record encoder, field by field in schema
    order; a record whose names or value kinds differ from the schema has
    no encoding. *)
Fixpoint encode (d : dtype) (r : record) : option (list byte) :=
  match d, r with
  | [], [] => Some []
  | (n, t) :: d', (n', v) :: r' =>
      if String.eqb n n' then
        match encode_scalar t v, encode d' r' with
        | Some b, Some bs => Some (b ++ bs)
        | _, _ => None
        end
      else None
  | _, _ => None
  end.

(** [fread]: up to [n] complete items from the bytes left in the file. *)
Fixpoint fread (d : dtype) (n : nat) (bs : list byte) : ndarray :=
  match n with
  | O => []
  | S n' =>
      if (itemsize d <=? length bs)%nat
      then decode d (take (itemsize d) bs) :: fread d n' (drop (itemsize d) bs)
      else []
  end.

(** [np.fromfile(f, dtype, count)] on a binary file positioned at [pos]:
    with a negative count the number of items is the truncated quotient of
    the remaining bytes by the item size (a negative size is an error);
    fewer complete items than asked for shorten the array silently. *)
Definition fromfile (d : dtype) (count : Z) (content : list byte) (pos : Z)
  : result ndarray :=
  let num :=
    if count <? 0
    then Z.quot (Z.of_nat (length content) - pos) (Z.of_nat (itemsize d))
    else count in
  if num <? 0 then Raise ValueError
  else Ok (fread d (Z.to_nat num) (drop (Z.to_nat pos) content)).

(** [rec[name]] on one element. *)
Fixpoint field (name : string) (r : record) : result value :=
  match r with
  | [] => Raise ValueError
  | (n, v) :: r' => if String.eqb n name then Ok v else field name r'
  end.

(** [arr[name]]: the array of that field. *)
Fixpoint getfield (name : string) (a : ndarray) : result (list value) :=
  match a with
  | [] => Ok []
  | r :: a' => v ← field name r; vs ← getfield name a'; Ok (v :: vs)
  end.

(** [arr[[n1, n2, ...]]]: the array restricted to those fields, in the
    order asked for. *)
Fixpoint fields_of (ns : list string) (r : record) : result record :=
  match ns with
  | [] => Ok []
  | n :: ns' => v ← field n r; r' ← fields_of ns' r; Ok ((n, v) :: r')
  end.

Fixpoint getfields (ns : list string) (a : ndarray) : result ndarray :=
  match a with
  | [] => Ok []
  | r :: a' => r1 ← fields_of ns r; a1 ← getfields ns a'; Ok (r1 :: a1)
  end.

(** [a[0]] *)
Definition index0 {A} (a : list A) : result A :=
  match a with
  | x :: _ => Ok x
  | [] => Raise IndexError
  end.

(** [a.item()]: only an array of size one converts to a scalar. *)
Definition item {A} (a : list A) : result A :=
  match a with
  | [x] => Ok x
  | _ => Raise ValueError
  end.

(** [int(x)] on the scalar of a header field: a byte string is parsed, an
    integer is itself.  The module applies it to byte-string fields only;
    for the other kinds of value (where Python would truncate a float) the
    model has no answer of its own and reports a [TypeError]. *)
Definition int_of_value (v : value) : result Z :=
  match v with
  | VBytes b => Py.int b
  | VInt z => Ok z
  | _ => Raise TypeError
  end.

(** An integer scalar used in arithmetic. *)
Definition as_int (v : value) : result Z :=
  match v with
  | VInt z => Ok z
  | _ => Raise TypeError
  end.

End Np.

(** ** The record schemas *)

Module Schema.
Import Np.
Local Open Scope string_scope.

Definition AST_DTYPE : dtype :=
  [
    ("NO", int32); ("NOBS", int32); ("OBSFRST", int32); ("OBSLAST", int32);
    ("EPOCH", float64); ("CALEPO", float64); ("MA", float64); ("W", float64);
    ("OM", float64); ("IN", float64); ("EC", float64); ("A", float64);
    ("QR", float64); ("TP", float64); ("TPCAL", float64);
    ("TPFRAC", float64); ("SOLDAT", float64); ("SRC1", float64);
    ("SRC2", float64); ("SRC3", float64); ("SRC4", float64);
    ("SRC5", float64); ("SRC6", float64); ("SRC7", float64);
    ("SRC8", float64); ("SRC9", float64); ("SRC10", float64);
    ("SRC11", float64); ("SRC12", float64); ("SRC13", float64);
    ("SRC14", float64); ("SRC15", float64); ("SRC16", float64);
    ("SRC17", float64); ("SRC18", float64); ("SRC19", float64);
    ("SRC20", float64); ("SRC21", float64); ("SRC22", float64);
    ("SRC23", float64); ("SRC24", float64); ("SRC25", float64);
    ("SRC26", float64); ("SRC27", float64); ("SRC28", float64);
    ("SRC29", float64); ("SRC30", float64); ("SRC31", float64);
    ("SRC32", float64); ("SRC33", float64); ("SRC34", float64);
    ("SRC35", float64); ("SRC36", float64); ("SRC37", float64);
    ("SRC38", float64); ("SRC39", float64); ("SRC40", float64);
    ("SRC41", float64); ("SRC42", float64); ("SRC43", float64);
    ("SRC44", float64); ("SRC45", float64); ("PRELTV", int8);
    ("SPHMX3", int8); ("SPHMX5", int8); ("JGSEP", int8); ("TWOBOD", int8);
    ("NSATS", int8); ("UPARM", int8); ("LSRC", int8); ("NDEL", int16);
    ("NDOP", int16); ("H", float32); ("G", float32); ("A1", float32);
    ("A2", float32); ("A3", float32); ("R0", float32); ("ALN", float32);
    ("NM", float32); ("NN", float32); ("NK", float32); ("LGK", float32);
    ("RHO", float32); ("AMRAT", float32); ("ALF", float32); ("DEL", float32);
    ("SPHLM3", float32); ("SPHLM5", float32); ("RP", float32);
    ("GM", float32); ("RAD", float32); ("EXTNT1", float32);
    ("EXTNT2", float32); ("EXTNT3", float32); ("MOID", float32);
    ("ALBEDO", float32); ("BVCI", float32); ("UBCI", float32);
    ("IRCI", float32); ("RMSW", float32); ("RMSU", float32);
    ("RMSN", float32); ("RMSNT", float32); ("RMSH", float32);
    ("EQUNOX", S_ 4); ("PENAM", S_ 6); ("SBNAM", S_ 12);
    ("SPTYPT", S_ 5); ("SPTYPS", S_ 5); ("DARC", S_ 9);
    ("COMNT1", S_ 41); ("COMNT2", S_ 80); ("DESIG", S_ 13);
    ("ASTEST", S_ 8); ("IREF", S_ 10); ("ASTNAM", S_ 18)
  ].

Definition COM_DTYPE : dtype :=
  [
    ("NO", int32); ("NOBS", int32); ("OBSFRST", int32); ("OBSLAST", int32);
    ("EPOCH", float64); ("CALEPO", float64); ("MA", float64); ("W", float64);
    ("OM", float64); ("IN", float64); ("EC", float64); ("A", float64);
    ("QR", float64); ("TP", float64); ("TPCAL", float64);
    ("TPFRAC", float64); ("SOLDAT", float64); ("SRC1", float64);
    ("SRC2", float64); ("SRC3", float64); ("SRC4", float64);
    ("SRC5", float64); ("SRC6", float64); ("SRC7", float64);
    ("SRC8", float64); ("SRC9", float64); ("SRC10", float64);
    ("SRC11", float64); ("SRC12", float64); ("SRC13", float64);
    ("SRC14", float64); ("SRC15", float64); ("SRC16", float64);
    ("SRC17", float64); ("SRC18", float64); ("SRC19", float64);
    ("SRC20", float64); ("SRC21", float64); ("SRC22", float64);
    ("SRC23", float64); ("SRC24", float64); ("SRC25", float64);
    ("SRC26", float64); ("SRC27", float64); ("SRC28", float64);
    ("SRC29", float64); ("SRC30", float64); ("SRC31", float64);
    ("SRC32", float64); ("SRC33", float64); ("SRC34", float64);
    ("SRC35", float64); ("SRC36", float64); ("SRC37", float64);
    ("SRC38", float64); ("SRC39", float64); ("SRC40", float64);
    ("SRC41", float64); ("SRC42", float64); ("SRC43", float64);
    ("SRC44", float64); ("SRC45", float64); ("SRC46", float64);
    ("SRC47", float64); ("SRC48", float64); ("SRC49", float64);
    ("SRC50", float64); ("SRC51", float64); ("SRC52", float64);
    ("SRC53", float64); ("SRC54", float64); ("SRC55", float64);
    ("PRELTV", int8); ("SPHMX3", int8); ("SPHMX5", int8); ("JGSEP", int8);
    ("TWOBOD", int8); ("NSATS", int8); ("UPARM", int8); ("LSRC", int8);
    ("IPYR", int16); ("NDEL", int16); ("NDOP", int16); ("NOBSMT", int16);
    ("NOBSMN", int16); ("H", float32); ("G", float32); ("M1 (MT)", float32);
    ("M2 (MN)", float32); ("K1 (MTSMT)", float32); ("K2 (MNSMT)", float32);
    ("PHCOF (MNP)", float32); ("A1", float32); ("A2", float32);
    ("A3", float32); ("DT", float32); ("R0", float32); ("ALN", float32);
    ("NM", float32); ("NN", float32); ("NK", float32); ("S0", float32);
    ("TCL", float32); ("RHO", float32); ("AMRAT", float32); ("AJ1", float32);
    ("AJ2", float32); ("ET1", float32); ("ET2", float32); ("DTH", float32);
    ("ALF", float32); ("DEL", float32); ("SPHLM3", float32);
    ("SPHLM5", float32); ("RP", float32); ("GM", float32); ("RAD", float32);
    ("EXTNT1", float32); ("EXTNT2", float32); ("EXTNT3", float32);
    ("MOID", float32); ("ALBEDO", float32); ("RMSW", float32);
    ("RMSU", float32); ("RMSN", float32); ("RMSNT", float32);
    ("RMSMT", float32); ("RMSMN", float32); ("EQUNOX", S_ 4);
    ("PENAM", S_ 6); ("SBNAM", S_ 12); ("DARC", S_ 9); ("COMNT3", S_ 49);
    ("COMNT2", S_ 80); ("DESIG", S_ 13); ("COMEST", S_ 14);
    ("IREF", S_ 10); ("COMNAM", S_ 29)
  ].

(** The header layouts declared inside [read_headers]. *)
Definition ast_header_dtype : dtype :=
  [ ("IBIAS1", int32);
    ("BEGINP1", S_ 8); ("BEGINP2", S_ 8); ("BEGINP3", S_ 8);
    ("ENDPT1", S_ 8); ("ENDPT2", S_ 8); ("ENDPT3", S_ 8);
    ("CALDATE", S_ 19);
    ("JDDATE", float64);
    ("FTYP", S_ 1);
    ("BYTE2A", int16);
    ("IBIAS0", int32) ].

Definition com_header_dtype : dtype :=
  [ ("IBIAS2", int32);
    ("BEGINP1", S_ 8); ("BEGINP2", S_ 8); ("BEGINP3", S_ 8);
    ("ENDPT1", S_ 8); ("ENDPT2", S_ 8); ("ENDPT3", S_ 8);
    ("CALDATE", S_ 19);
    ("JDDATE", float64);
    ("FTYP", S_ 1);
    ("BYTE2C", int16) ].

End Schema.

(** ** re: the pattern fragment that the name search can be shown to use

    [re.search] is modelled for patterns built from literal characters,
    [.], [^], [$], [\b], [\B], escaped punctuation, groups, [|] and the
    greedy [*], [+], [?].  A pattern that uses anything else (character
    sets, counted repeats, extension groups, lazy or possessive repeats,
    alphanumeric escapes other than [\b] and [\B]) is [Outside] the model,
    which then says nothing.  Only the truth value of the search is
    modelled, which is all the name search looks at.  Text is ASCII. *)

Module Re.
Import Py.

Inductive anchor :=
| at_boundary
| at_non_boundary
| at_beginning
| at_end.

Inductive regex :=
| Empty
| Lit (c : ascii)
| AnyChar
| At (a : anchor)
| Cat (r1 r2 : regex)
| Alt (r1 r2 : regex)
| Group (r : regex)
| Star (r : regex)
| Plus (r : regex)
| Opt (r : regex).

Inductive outcome :=
| Compiled (r : regex)
| PatternError (why : re_why)
| Outside.

(** [SPECIAL_CHARS] of the pattern parser. *)
Definition SPECIAL_CHARS : list ascii :=
  list_ascii_of_string ".\[{()*+?^$|".

Definition is_special (c : ascii) : bool :=
  existsb (Ascii.eqb c) SPECIAL_CHARS.

Definition is_alpha (c : ascii) : bool :=
  let n := N_of_ascii c in
  (((65 <=? n) && (n <=? 90)) || ((97 <=? n) && (n <=? 122)))%N.

Definition is_decimal (c : ascii) : bool :=
  let n := N_of_ascii c in ((48 <=? n) && (n <=? 57))%N.

(** The parser's state inside one (sub)pattern: the alternatives already
    closed by [|] and the items of the alternative being read, both with the
    most recent first. *)
Record frame := { branches : list regex; items : list regex }.

Definition empty_frame : frame := {| branches := []; items := [] |}.

Definition push (r : regex) (f : frame) : frame :=
  {| branches := branches f; items := r :: items f |}.

Definition seq_of (its : list regex) : regex :=
  fold_left (λ acc r, Cat r acc) its Empty.

Definition new_branch (f : frame) : frame :=
  {| branches := seq_of (items f) :: branches f; items := [] |}.

Definition finish (f : frame) : regex :=
  fold_left (λ acc b, Alt b acc) (branches f) (seq_of (items f)).

Inductive escaped :=
| EscItem (r : regex)
| EscOutside.

(** A backslash followed by [e]. *)
Definition escape (e : ascii) : escaped :=
  if Ascii.eqb e "b"%char then EscItem (At at_boundary)
  else if Ascii.eqb e "B"%char then EscItem (At at_non_boundary)
  else if is_alpha e || is_decimal e then EscOutside
  else EscItem (Lit e).

Definition repeat_of (c : ascii) (r : regex) : regex :=
  if Ascii.eqb c "*"%char then Star r
  else if Ascii.eqb c "+"%char then Plus r
  else Opt r.

Definition is_repeat (c : ascii) : bool :=
  Ascii.eqb c "*"%char || Ascii.eqb c "+"%char || Ascii.eqb c "?"%char.

(** One left-to-right pass; [stack] holds the frames of the groups that are
    still open. *)
Fixpoint parse_loop (stack : list frame) (cur : frame) (p : list ascii)
  {struct p} : outcome :=
  match p with
  | [] =>
      match stack with
      | [] => Compiled (finish cur)
      | _ :: _ => PatternError missing_paren
      end
  | c :: p' =>
      if negb (is_special c) then parse_loop stack (push (Lit c) cur) p'
      else if Ascii.eqb c "\"%char then
        match p' with
        | [] => PatternError bad_escape
        | e :: p'' =>
            match escape e with
            | EscItem r => parse_loop stack (push r cur) p''
            | EscOutside => Outside
            end
        end
      else if Ascii.eqb c "."%char then parse_loop stack (push AnyChar cur) p'
      else if Ascii.eqb c "^"%char
      then parse_loop stack (push (At at_beginning) cur) p'
      else if Ascii.eqb c "$"%char
      then parse_loop stack (push (At at_end) cur) p'
      else if Ascii.eqb c "|"%char then parse_loop stack (new_branch cur) p'
      else if Ascii.eqb c "("%char then
        match p' with
        | q :: _ =>
            if Ascii.eqb q "?"%char then Outside
            else parse_loop (cur :: stack) empty_frame p'
        | [] => parse_loop (cur :: stack) empty_frame p'
        end
      else if Ascii.eqb c ")"%char then
        match stack with
        | [] => PatternError unbalanced_paren
        | f :: stack' => parse_loop stack' (push (Group (finish cur)) f) p'
        end
      else if is_repeat c then
        match items cur with
        | [] => PatternError nothing_to_repeat
        | At _ :: _ => PatternError nothing_to_repeat
        | Star _ :: _ | Plus _ :: _ | Opt _ :: _ => PatternError multiple_repeat
        | it :: its =>
            let cur' := {| branches := branches cur;
                           items := repeat_of c it :: its |} in
            match p' with
            | q :: _ =>
                if Ascii.eqb q "?"%char || Ascii.eqb q "+"%char then Outside
                else parse_loop stack cur' p'
            | [] => parse_loop stack cur' p'
            end
        end
      else Outside
  end.

Definition compile (pattern : string) : outcome :=
  parse_loop [] empty_frame (list_ascii_of_string pattern).

(** The characters of a query that the parser takes literally, on ASCII
    text, and the pattern that the name search then builds around them:
    a boundary, the characters, a boundary. *)
Definition literal_char (c : ascii) : bool :=
  negb (is_special c) && (N_of_ascii c <? 128)%N.

Definition literal_text (s : string) : bool :=
  forallb literal_char (list_ascii_of_string s).

Definition ascii_bytes (l : list byte) : bool :=
  forallb (λ b, (Byte.to_N b <? 128)%N) l.

Definition literal_regex (q : list ascii) : regex :=
  Cat (At at_boundary)
    (fold_right (λ c acc, Cat (Lit c) acc) (Cat (At at_boundary) Empty) q).

(** Word characters of [\b] on ASCII text. *)
Definition is_word (c : ascii) : bool :=
  is_alpha c || is_decimal c || Ascii.eqb c "_"%char.

Definition word_at (s : list ascii) (i : nat) : bool :=
  match s !! i with
  | Some c => is_word c
  | None => false
  end.

Definition word_before (s : list ascii) (i : nat) : bool :=
  match i with
  | O => false
  | S j => word_at s j
  end.

Definition boundary (s : list ascii) (i : nat) : bool :=
  xorb (word_before s i) (word_at s i).

Definition anchor_holds (a : anchor) (s : list ascii) (i : nat) : bool :=
  match a with
  | at_boundary => boundary s i
  | at_non_boundary =>
      match s with
      | [] => false
      | _ :: _ => negb (boundary s i)
      end
  | at_beginning => Nat.eqb i 0
  | at_end =>
      Nat.eqb i (length s)
      || (Nat.eqb (S i) (length s)
          && match s !! i with
             | Some c => Ascii.eqb c "010"%char
             | None => false
             end)
  end.

(** The positions reachable from [front] by at most [fuel] further rounds
    of [step]. *)
Fixpoint closure (step : nat → list nat) (fuel : nat) (front : list nat)
  : list nat :=
  match fuel with
  | O => front
  | S k => front ++ closure step k (remove_dups (flat_map step front))
  end.

(** [ends r s i]: the positions at which a match of [r] that starts at
    position [i] of [s] can end. *)
Fixpoint ends (r : regex) (s : list ascii) (i : nat) : list nat :=
  match r with
  | Empty => [i]
  | Lit c =>
      match s !! i with
      | Some d => if Ascii.eqb c d then [S i] else []
      | None => []
      end
  | AnyChar =>
      match s !! i with
      | Some d => if Ascii.eqb d "010"%char then [] else [S i]
      | None => []
      end
  | At a => if anchor_holds a s i then [i] else []
  | Cat r1 r2 => flat_map (ends r2 s) (ends r1 s i)
  | Alt r1 r2 => ends r1 s i ++ ends r2 s i
  | Group r1 => ends r1 s i
  | Star r1 => closure (ends r1 s) (S (length s)) [i]
  | Plus r1 => closure (ends r1 s) (S (length s)) (ends r1 s i)
  | Opt r1 => i :: ends r1 s i
  end.

Definition matches_from (r : regex) (s : list ascii) (i : nat) : bool :=
  match ends r s i with
  | [] => false
  | _ :: _ => true
  end.

Definition search_compiled (r : regex) (s : list ascii) : bool :=
  existsb (matches_from r s) (seq 0 (S (length s))).

Inductive searched :=
| Found (b : bool)
| SearchError (why : re_why)
| SearchOutside.

(** The truth value of [re.search(pattern, string)]. *)
Definition search (pattern text : string) : searched :=
  match compile pattern with
  | Compiled r => Found (search_compiled r (list_ascii_of_string text))
  | PatternError why => SearchError why
  | Outside => SearchOutside
  end.

End Re.

(** ** astropy: the tables that the module builds *)

Module Astropy.
Import Py Np.

Record Table := { colnames : list string; rows : list (list value) }.

(** [Table(arr)] for a structured array whose dtype has the names [ns]. *)
Definition Table_of_array (ns : list string) (a : ndarray) : Table :=
  {| colnames := ns; rows := map (map snd) a |}.

End Astropy.

(** ** The module [dastcom5] *)

Module Dastcom5.
Import Py Np Schema Astropy.
Local Open Scope string_scope.
Local Open Scope Z_scope.

(** What the module sees of its surroundings: the home directory, the
    files and directories of the file system, the largest offset a file of
    it can be positioned at, and what the FTP server serves. *)
Record world := {
  home : string;
  files : gmap string (list byte);
  dirs : gset string;
  maxbytes : Z;
  ftp : gmap string (list byte)
}.

Definition SBPY_LOCAL_PATH (w : world) : string := join (home w) ".sbpy".
Definition DBS_LOCAL_PATH (w : world) : string :=
  join (join (SBPY_LOCAL_PATH w) "dastcom5") "dat".
Definition AST_DB_PATH (w : world) : string :=
  join (DBS_LOCAL_PATH w) "dast5_le.dat".
Definition COM_DB_PATH (w : world) : string :=
  join (DBS_LOCAL_PATH w) "dcom5_le.dat".

Definition FTP_DB_URL : string := "ftp://ssd.jpl.nasa.gov/pub/ssd/".

(** [q] lies below [p]. *)
Definition under (p q : string) : bool := String.prefix (p +:+ "/") q.

(** The proper ancestors of a path: its prefixes that stop before a
    separator, the root excepted. *)
Fixpoint ancestors_from (seen : list ascii) (rest : list ascii)
  : list string :=
  match rest with
  | [] => []
  | c :: rest' =>
      let more := ancestors_from (c :: seen) rest' in
      if Ascii.eqb c "/"%char then
        match seen with
        | [] => more
        | _ :: _ => string_of_list_ascii (rev seen) :: more
        end
      else more
  end.

Definition ancestors (p : string) : list string :=
  ancestors_from [] (list_ascii_of_string p).

(** A regular file: a content with nothing stored below it.  Nothing lies
    below a file of a file system, so a content with entries below it
    stands for none. *)
Definition isfile (w : world) (p : string) : bool :=
  bool_decide (is_Some (files w !! p))
  && negb (existsb (under p) (map fst (map_to_list (files w)))).

(** The path leads through a regular file. *)
Definition through_file (w : world) (p : string) : bool :=
  existsb (isfile w) (ancestors p).

(** [open(path, "rb")] and [open(path, "r")]: the content of the file.  A
    directory at the path is an [IsADirectoryError], a regular file on the
    way to it a [NotADirectoryError], and nothing at the path a
    [FileNotFoundError]. *)
Definition open (w : world) (path : string) : result (list byte) :=
  match files w !! path with
  | Some c => Ok c
  | None =>
      if bool_decide (path ∈ dirs w) then Raise IsADirectoryError
      else if through_file w path then Raise NotADirectoryError
      else Raise FileNotFoundError
  end.

(** [f.seek(offset, os.SEEK_SET)] on a file just opened: an offset that
    does not fit a signed 64-bit integer is a [ValueError]; one that fits
    is an [OSError] when it is negative or beyond what the file system
    supports; any other position is accepted, also past the end of the
    file. *)
Definition seek (w : world) (offset : Z) : result Z :=
  if (offset <? - 2 ^ 63) || (2 ^ 63 <=? offset) then Raise ValueError
  else if offset <? 0 then Raise OSError
  else if maxbytes w <? offset then Raise OSError
  else Ok offset.

(** No file is longer than the largest offset of the file system, which
    fits a 64-bit offset. *)
Definition fits (w : world) : Prop :=
  maxbytes w < 2 ^ 63
  ∧ ∀ p c, files w !! p = Some c → Z.of_nat (length c) ≤ maxbytes w.

Definition asteroid_db (w : world) : result ndarray :=
  c ← open w (AST_DB_PATH w);
  pos ← seek w 835;
  fromfile AST_DTYPE (-1) c pos.

Definition comet_db (w : world) : result ndarray :=
  c ← open w (COM_DB_PATH w);
  pos ← seek w 976;
  fromfile COM_DTYPE (-1) c pos.

(** The loop of [string_record_from_name] over the lines of the index:
    [lines] collects the lines that the pattern finds.  [None] stands for a
    pattern outside the modelled fragment. *)
Fixpoint scan_index (name : string) (inF : list string) (lines : list string)
  : option (result (list string)) :=
  match inF with
  | [] => Some (Ok lines)
  | line :: inF' =>
      match Re.search ("\b" +:+ casefold name +:+ "\b") (casefold line) with
      | Re.Found true => scan_index name inF' (lines ++ [line])%list
      | Re.Found false => scan_index name inF' lines
      | Re.SearchError why => Some (Raise (re_error why))
      | Re.SearchOutside => None
      end
  end.

Definition string_record_from_name (w : world) (name : string)
  : option (result (list string)) :=
  let idx_path := join (DBS_LOCAL_PATH w) "dastcom.idx" in
  match open w idx_path with
  | Raise e => Some (Raise e)
  | Ok inF => scan_index name (text_lines inF) []
  end.

Definition read_headers (w : world) : result (ndarray * ndarray) :=
  let ast_path := join (DBS_LOCAL_PATH w) "dast5_le.dat" in
  f ← open w ast_path;
  ast_header ← fromfile ast_header_dtype 1 f 0;
  let com_path := join (DBS_LOCAL_PATH w) "dcom5_le.dat" in
  f ← open w com_path;
  com_header ← fromfile com_header_dtype 1 f 0;
  Ok (ast_header, com_header).

(** Where [read_record] reads: the file, the offset [phis_rec] and the
    schema chosen by its nested test on the record number. *)
Record target := { path : string; phis_rec : Z; schema : dtype }.

(** [header[name][0].item()] *)
Definition header_item (name : string) (header : ndarray) : result value :=
  col ← getfield name header; index0 col.

(** The first half of [read_record], up to the choice of [phis_rec]. *)
Definition locate_record (w : world) (record : Z) : result target :=
  '(ast_header, com_header) ← read_headers w;
  let ast_path := join (DBS_LOCAL_PATH w) "dast5_le.dat" in
  let com_path := join (DBS_LOCAL_PATH w) "dcom5_le.dat" in
  ENDPT2 ← header_item "ENDPT2" ast_header ≫= int_of_value;
  if record <=? ENDPT2 then
    ENDPT1 ← header_item "ENDPT1" ast_header ≫= int_of_value;
    if record <=? ENDPT1 then
      IBIAS0 ← header_item "IBIAS0" ast_header ≫= as_int;
      Ok {| path := ast_path; phis_rec := 835 * (record - IBIAS0 - 1);
            schema := AST_DTYPE |}
    else
      IBIAS1 ← header_item "IBIAS1" ast_header ≫= as_int;
      Ok {| path := ast_path; phis_rec := 835 * (record - IBIAS1 - 1);
            schema := AST_DTYPE |}
  else
    IBIAS2 ← header_item "IBIAS2" com_header ≫= as_int;
    Ok {| path := com_path; phis_rec := 976 * (record - IBIAS2 - 1);
          schema := COM_DTYPE |}.

(** The second half, the same in both branches: open, seek, read one
    item. *)
Definition read_record (w : world) (record : Z) : result ndarray :=
  t ← locate_record w record;
  f ← open w (path t);
  pos ← seek w (phis_rec t);
  fromfile (schema t) 1 f pos.

Section Orbit.

(** [Time(x, format=..., scale=...)] and [Table(rows=[...])] are astropy's
    and are left open: what [Time] accepts and what [Table] makes of the
    cells of a column is the library's. *)
Variable Time : value → string → string → result value.
Variable Table_rows : list (list value) → result Table.

Definition orbit_from_record (w : world) (record : Z) : result Table :=
  body_data ← read_record w record;
  a ← getfield "A" body_data ≫= item;
  ecc ← getfield "EC" body_data ≫= item;
  inc ← getfield "IN" body_data ≫= item;
  raan ← getfield "OM" body_data ≫= item;
  argp ← getfield "W" body_data ≫= item;
  m ← getfield "MA" body_data ≫= item;
  jd ← getfield "EPOCH" body_data ≫= item;
  epoch ← Time jd "jd" "tdb";
  let column2 := [VInt record; a; ecc; inc; raan; argp; m; epoch] in
  let column1 :=
    map VStr ["record"; "a"; "ecc"; "inc"; "raan"; "argp"; "m"; "EPOCH"] in
  Table_rows [column1; column2].

End Orbit.

(** The field names kept by [entire_db]:
    [names[:17] + names[-4:-3] + names[-2:]]. *)
Definition kept_names (ns : list string) : list string :=
  slice None (Some 17) ns
  ++ slice (Some (-4)) (Some (-3)) ns
  ++ slice (Some (-2)) None ns.

(** [entire_db] up to its last call: the two tables it has built when it
    reaches [vstack]. *)
Definition entire_db_tables (w : world) : result (Table * Table) :=
  ast_database ← asteroid_db w;
  com_database ← comet_db w;
  ast_kept ← getfields (kept_names (names AST_DTYPE)) ast_database;
  let ast_table := Table_of_array (kept_names (names AST_DTYPE)) ast_kept in
  com_kept ← getfields (kept_names (names COM_DTYPE)) com_database;
  let com_table := Table_of_array (kept_names (names COM_DTYPE)) com_kept in
  Ok (ast_table, com_table).

Section Bulk.

(** What [vstack(t1, t2)] does when handed the second table where its
    [join_type] is expected belongs to astropy and is left open. *)
Variable vstack : Table → Table → result Table.

Definition entire_db (w : world) : result Table :=
  '(ast_database, com_database) ← entire_db_tables w;
  vstack ast_database com_database.

End Bulk.

(** *** The archive download, with the file system threaded through *)

Definition isdir (w : world) (p : string) : bool := bool_decide (p ∈ dirs w).

Definition with_fs (w : world) (fs : gmap string (list byte))
  (ds : gset string) : world :=
  {| home := home w; files := fs; dirs := ds;
     maxbytes := maxbytes w; ftp := ftp w |}.

(** [shutil.rmtree(p)]: the directory and all below it are gone. *)
Definition rmtree (p : string) (w : world) : world :=
  with_fs w
    (filter (λ kv, under p kv.1 = false) (files w))
    (filter (λ q, q ≠ p ∧ under p q = false) (dirs w)).

(** [os.makedirs(p)]: refused where something exists already and below a
    regular file; otherwise the directory and its missing ancestors are
    there afterwards. *)
Definition makedirs (p : string) (w : world) : result unit * world :=
  if bool_decide (is_Some (files w !! p)) || isdir w p
  then (Raise FileExistsError, w)
  else if through_file w p then (Raise NotADirectoryError, w)
  else (Ok (), with_fs w (files w) (list_to_set (p :: ancestors p) ∪ dirs w)).

(** [os.path.exists(p)] *)
Definition path_exists (w : world) (p : string) : bool :=
  bool_decide (is_Some (files w !! p)) || isdir w p.

(** The directory that holds [p] is there: a listed directory, the root,
    or the current directory for a path without separators. *)
Definition parent_exists (w : world) (p : string) : bool :=
  forallb (Ascii.eqb "/"%char) (list_ascii_of_string (dirname p))
  || isdir w (dirname p).

(** [os.mkdir(p)] *)
Definition mkdir (p : string) (w : world) : result unit * world :=
  if path_exists w p then (Raise FileExistsError, w)
  else if through_file w p then (Raise NotADirectoryError, w)
  else if negb (parent_exists w p) then (Raise FileNotFoundError, w)
  else (Ok (), with_fs w (files w) ({[ p ]} ∪ dirs w)).

(** [open(p, "wb")] followed by the copy of [body] into it. *)
Definition open_wb (p : string) (body : list byte) (w : world)
  : result unit * world :=
  if isdir w p then (Raise IsADirectoryError, w)
  else if through_file w p then (Raise NotADirectoryError, w)
  else if negb (parent_exists w p) then (Raise FileNotFoundError, w)
  else (Ok (), with_fs w (<[p := body]> (files w)) (dirs w)).

(** [urllib.request.urlretrieve(url, filename, hook)] *)
Definition urlretrieve (url filename : string) (w : world)
  : result unit * world :=
  match ftp w !! url with
  | Some c => (Ok (), with_fs w (<[filename := c]> (files w)) (dirs w))
  | None => (Raise URLError, w)
  end.

(** [os.remove(p)] *)
Definition remove (p : string) (w : world) : result unit * world :=
  match files w !! p with
  | Some _ => (Ok (), with_fs w (delete p (files w)) (dirs w))
  | None => (Raise FileNotFoundError, w)
  end.

Section Download.

(** The zip format is the library's: whether a content looks like an
    archive, and the members of one that is. *)
Variable looks_like_zip : list byte → bool.
Variable members : list byte → option (list (string * list byte)).

(** [zipfile.is_zipfile(p)] *)
Definition is_zipfile (w : world) (p : string) : bool :=
  match files w !! p with
  | Some c => looks_like_zip c
  | None => false
  end.

(** The relative name under which [ZipFile._extract_member] stores a
    member (on POSIX): the name without its empty, "." and ".."
    components, so no member leaves the directory it is extracted to. *)
Definition arcname (filename : string) : string :=
  join_sep
    (List.filter
       (λ x, negb (String.eqb x "" || String.eqb x "." || String.eqb x ".."))
       (split_sep filename)).

(** [ZipFile.getinfo(name)] and the content it leads to: of the members
    with one name the last is the one the archive knows. *)
Definition getinfo (ms : list (string * list byte)) (name : string)
  : list byte :=
  from_option snd [] (last (filter (λ m, m.1 = name) ms)).

(** [ZipFile._extract_member(name, targetpath, pwd)] *)
Definition _extract_member (ms : list (string * list byte))
    (targetpath : string) (filename : string) (w : world)
  : result unit * world :=
  let targetpath := normpath (join targetpath (arcname filename)) in
  let upperdirs := dirname targetpath in
  let '(made, w1) :=
    if negb (String.eqb upperdirs "") && negb (path_exists w upperdirs)
    then makedirs upperdirs w else (Ok (), w) in
  match made with
  | Raise e => (Raise e, w1)
  | Ok _ =>
      if String.eqb filename "" then (Raise IndexError, w1)
      else if endswith_sep filename then
        if isdir w1 targetpath then (Ok (), w1) else mkdir targetpath w1
      else open_wb targetpath (getinfo ms filename) w1
  end.

(** The loop of [ZipFile.extractall] over [namelist()]: the first failure
    ends it, and what was extracted before stays. *)
Fixpoint extract_members (ms : list (string * list byte)) (path : string)
    (names : list string) (w : world) : result unit * world :=
  match names with
  | [] => (Ok (), w)
  | zipinfo :: names' =>
      match _extract_member ms path zipinfo w with
      | (Raise e, w') => (Raise e, w')
      | (Ok _, w') => extract_members ms path names' w'
      end
  end.

(** [with zipfile.ZipFile(p) as myzip: myzip.extractall(dest)] *)
Definition extractall (p dest : string) (w : world) : result unit * world :=
  match open w p with
  | Raise e => (Raise e, w)
  | Ok c =>
      match members c with
      | None => (Raise BadZipFile, w)
      | Some ms => extract_members ms dest (map fst ms) w
      end
  end.

Definition download_dastcom5 (update : bool) (w : world)
  : result unit * world :=
  let dastcom5_dir := join (SBPY_LOCAL_PATH w) "dastcom5" in
  let dastcom5_zip_path := join (SBPY_LOCAL_PATH w) "dastcom5.zip" in
  if isdir w dastcom5_dir && negb update then (Raise FileExistsError, w)
  else
    let w1 := if isdir w dastcom5_dir && update
              then rmtree dastcom5_dir w else w in
    let '(fetched, w2) :=
      if negb (is_zipfile w1 dastcom5_zip_path) then
        let '(made, w1') :=
          if negb (isdir w1 (SBPY_LOCAL_PATH w))
          then makedirs (SBPY_LOCAL_PATH w) w1 else (Ok (), w1) in
        match made with
        | Raise e => (Raise e, w1')
        | Ok _ =>
            urlretrieve (FTP_DB_URL +:+ "dastcom5.zip") dastcom5_zip_path w1'
        end
      else (Ok (), w1) in
    match fetched with
    | Raise e => (Raise e, w2)
    | Ok _ =>
        match extractall dastcom5_zip_path (SBPY_LOCAL_PATH w) w2 with
        | (Raise e, w3) => (Raise e, w3)
        | (Ok _, w3) => remove dastcom5_zip_path w3
        end
    end.

End Download.

(** *** From a name to records and orbits *)

(** The loop of [record_from_name]: [records] collects
    [int(line[:6].lstrip())] for each line. *)
Fixpoint records_of_lines (lines : list string) (records : list Z)
  : result (list Z) :=
  match lines with
  | [] => Ok records
  | line :: lines' =>
      n ← int_str (lstrip (slice None (Some 6) (list_ascii_of_string line)));
      records_of_lines lines' (records ++ [n])%list
  end.

Definition record_from_name (w : world) (name : string)
  : option (result (list Z)) :=
  match string_record_from_name w name with
  | None => None
  | Some (Raise e) => Some (Raise e)
  | Some (Ok lines) => Some (records_of_lines lines [])
  end.

Section NameOrbits.

(** [Time] and [Table(rows=...)] as for [orbit_from_record]; [Table(orbits)]
    for a list of tables is astropy's too and is left open. *)
Variable Time : value → string → string → result value.
Variable Table_rows : list (list value) → result Table.
Variable Table_of_tables : list Table → result Table.

(** The list comprehension of [orbit_from_name]:
    [[orbit_from_record(rec) for rec in records]]. *)
Fixpoint orbits_of_records (w : world) (records : list Z)
  : result (list Table) :=
  match records with
  | [] => Ok []
  | rec :: records' =>
      orbit ← orbit_from_record Time Table_rows w rec;
      orbits ← orbits_of_records w records';
      Ok (orbit :: orbits)
  end.

Definition orbit_from_name (w : world) (name : string)
  : option (result Table) :=
  match record_from_name w name with
  | None => None
  | Some (Raise e) => Some (Raise e)
  | Some (Ok records) =>
      Some (orbits ← orbits_of_records w records; Table_of_tables orbits)
  end.

End NameOrbits.

End Dastcom5.

(** ** What the specification says, in its own words

    These definitions follow the prose of the specification, not the code;
    the theorems below compare them with the module. *)

Module Spec.
Import Py Np Schema Astropy Dastcom5.
Local Open Scope string_scope.
Local Open Scope Z_scope.

(** The three branches of the decision rule of the record resolver. *)
Definition numbered (w : world) (IBIAS0 r : Z) : target :=
  {| path := AST_DB_PATH w;
     phis_rec := Z.of_nat (itemsize AST_DTYPE) * (r - IBIAS0 - 1);
     schema := AST_DTYPE |}.

Definition unnumbered (w : world) (IBIAS1 r : Z) : target :=
  {| path := AST_DB_PATH w;
     phis_rec := Z.of_nat (itemsize AST_DTYPE) * (r - IBIAS1 - 1);
     schema := AST_DTYPE |}.

Definition comet (w : world) (IBIAS2 r : Z) : target :=
  {| path := COM_DB_PATH w;
     phis_rec := Z.of_nat (itemsize COM_DTYPE) * (r - IBIAS2 - 1);
     schema := COM_DTYPE |}.

(** "If the requested number is ≤ ENDPT1 ... If ENDPT1 < number ≤ ENDPT2
    ... Otherwise the record lives in the comet file." *)
Definition trichotomy (w : world) (ENDPT1 ENDPT2 IBIAS0 IBIAS1 IBIAS2 r : Z)
  : target :=
  if r <=? ENDPT1 then numbered w IBIAS0 r
  else if r <=? ENDPT2 then unnumbered w IBIAS1 r
  else comet w IBIAS2 r.



(** "Case-insensitive whole-word substring match (word boundary on both
    sides)": the folded query occurs in the folded line at some position,
    with a word boundary just before and just after the occurrence. *)
Fixpoint starts_with (q s : list ascii) : bool :=
  match q, s with
  | [], _ => true
  | c :: q', d :: s' => Ascii.eqb c d && starts_with q' s'
  | _ :: _, [] => false
  end.

Definition whole_word_at (q s : list ascii) (i : nat) : bool :=
  Re.boundary s i && starts_with q (drop i s)
  && Re.boundary s (i + length q).

Definition whole_word (name line : string) : bool :=
  let q := list_ascii_of_string (casefold name) in
  let s := list_ascii_of_string (casefold line) in
  existsb (whole_word_at q s) (seq 0 (S (length s))).

(** The fields that the merged view is said to expose: "record id, element
    block, absolute magnitude, MOID, and name". *)
Definition element_block : list string :=
  ["EPOCH"; "CALEPO"; "MA"; "W"; "OM"; "IN"; "EC"; "A"; "QR"; "TP";
   "TPCAL"; "TPFRAC"; "SOLDAT"].

Definition merged_fields (name_field : string) : list string :=
  ("NO" :: element_block) ++ ["H"; "MOID"; name_field].

End Spec.

(** ** A small archive to run the module on *)

Module Example.
Import Py Np Schema Astropy Dastcom5.
Local Open Scope string_scope.
Local Open Scope Z_scope.

(** A byte-string field of width [w] holding [s]. *)
Definition S_bytes (w : nat) (s : string) : list byte :=
  let b := list_byte_of_string s in
  take w b ++ replicate (w - length b) x00.

(** An asteroid header: numbered records 1..[E1], unnumbered 101..[E2],
    comets 201..201. *)
Definition ast_header (E1 E2 : string) : list byte :=
  le_split 4 97
  ++ S_bytes 8 "       1" ++ S_bytes 8 "     101" ++ S_bytes 8 "     201"
  ++ S_bytes 8 E1 ++ S_bytes 8 E2 ++ S_bytes 8 "     201"
  ++ S_bytes 19 "2020-01-01_00:00:00"
  ++ le_split 8 4702534215718141952
  ++ S_bytes 1 "A"
  ++ le_split 2 0
  ++ le_split 4 (-1).

Definition com_header : list byte :=
  le_split 4 199
  ++ S_bytes 8 "       1" ++ S_bytes 8 "     101" ++ S_bytes 8 "     201"
  ++ S_bytes 8 "       2" ++ S_bytes 8 "     101" ++ S_bytes 8 "     201"
  ++ S_bytes 19 "2020-01-01_00:00:00"
  ++ le_split 8 4702534215718141952
  ++ S_bytes 1 "C"
  ++ le_split 2 0.

(** The leading fields of a record, NO to A, then NULs up to [size];
    the floats are given by their bit patterns (EPOCH 2451545.0,
    CALEPO 20000101.0, MA 320.0, W 178.9, OM 304.3, IN 10.83, EC 0.2229,
    A 1.458). *)
Definition body (size : nat) (NO : Z) : list byte :=
  le_split 4 NO ++ le_split 4 5000 ++ le_split 4 18930101
  ++ le_split 4 20190101
  ++ le_split 8 4702519064147263488 ++ le_split 8 4716133946461519872
  ++ le_split 8 4644337115725824000 ++ le_split 8 4640498500730932429
  ++ le_split 8 4644060918404926669 ++ le_split 8 4622286366050311209
  ++ le_split 8 4597198839146062492 ++ le_split 8 4609245067429353095
  ++ replicate (size - 80) x00.

(** The asteroid file: the header in the first 835 bytes, then the
    numbered records 1 and 2 and the unnumbered record 101. *)
Definition ast_file (E1 E2 : string) : list byte :=
  ast_header E1 E2 ++ replicate (835 - 86) x00
  ++ body 835 1 ++ body 835 2 ++ body 835 101.

(** The comet file: the header in the first 976 bytes, then record 201. *)
Definition com_file : list byte :=
  com_header ++ replicate (976 - 82) x00 ++ body 976 201.

Definition LF : string := String "010"%char "".

Definition idx_file : list byte :=
  list_byte_of_string
    ("     1 Ceres" +:+ LF +:+ "     2 Eros 433" +:+ LF
     +:+ "   101 Aeros Erosion" +:+ LF +:+ "   201 abc" +:+ LF).

Definition world_with (ast com idx : list byte) : world :=
  {| home := "/home/user";
     files := {[ "/home/user/.sbpy/dastcom5/dat/dast5_le.dat" := ast;
                 "/home/user/.sbpy/dastcom5/dat/dcom5_le.dat" := com;
                 "/home/user/.sbpy/dastcom5/dat/dastcom.idx" := idx ]};
     dirs := {[ "/home/user"; "/home/user/.sbpy";
                "/home/user/.sbpy/dastcom5";
                "/home/user/.sbpy/dastcom5/dat" ]};
     maxbytes := 2 ^ 43;
     ftp := ∅ |}.

(** The archive as intended. *)
Definition archive : world :=
  world_with (ast_file "       2" "     101") com_file idx_file.

(** An archive without unnumbered asteroids: ENDPT1 = ENDPT2 = 2. *)
Definition no_unnumbered : world :=
  world_with (ast_file "       2" "       2") com_file idx_file.

(** An archive whose markers are out of order: ENDPT1 = 10, ENDPT2 = 5. *)
Definition disordered : world :=
  world_with (ast_file "      10" "       5") com_file idx_file.

(** An archive whose asteroid file stops after ten bytes. *)
Definition truncated : world :=
  world_with (take 10 (ast_file "       2" "     101")) com_file idx_file.

End Example.

(** ** The layout of an index line, as [record_from_name] reads it *)

Module IndexLine.
Import Py.

(** The number that a run of decimal digits writes. *)
Definition decimal_value (ds : list ascii) : Z :=
  fold_left (λ acc d, 10 * acc + (Z.of_N (N_of_ascii d) - 48))%Z ds 0%Z.

(** A line that carries the record number [n] right-justified in its
    first six columns: white space, then the digits of [n]. *)
Definition numbered (n : Z) (line : string) : Prop :=
  ∃ blanks digits rest,
    list_ascii_of_string line = blanks ++ digits ++ rest
    ∧ length (blanks ++ digits) = 6%nat
    ∧ forallb is_str_space blanks = true
    ∧ digits ≠ []
    ∧ forallb Re.is_decimal digits = true
    ∧ decimal_value digits = n.

(** A line whose first six columns hold white space only. *)
Definition blank_prefix (line : string) : bool :=
  forallb is_str_space (take 6 (list_ascii_of_string line)).

(** A line with at least one word character. *)
Definition has_word (line : string) : bool :=
  existsb Re.is_word (list_ascii_of_string line).

End IndexLine.

(** ** Further archives and a toy zip format to run the module on *)

Module Scenario.
Import Py Np Schema Astropy Dastcom5 Example.
Local Open Scope string_scope.
Local Open Scope Z_scope.

(** An archive without its comet file. *)
Definition no_comet : world :=
  {| home := "/home/user";
     files := {[ "/home/user/.sbpy/dastcom5/dat/dast5_le.dat"
                   := ast_file "       2" "     101";
                 "/home/user/.sbpy/dastcom5/dat/dastcom.idx" := idx_file ]};
     dirs := {[ "/home/user"; "/home/user/.sbpy";
                "/home/user/.sbpy/dastcom5";
                "/home/user/.sbpy/dastcom5/dat" ]};
     maxbytes := 2 ^ 43;
     ftp := ∅ |}.

(** An archive whose ENDPT1 marker is not a number. *)
Definition bad_endpt1 : world :=
  world_with (ast_file "   n/a  " "     101") com_file idx_file.

(** An archive whose comet file stops after ten bytes. *)
Definition short_comet : world :=
  world_with (ast_file "       2" "     101") (take 10 com_file) idx_file.

(** An archive cut down to the two header layouts. *)
Definition headers_only : world :=
  world_with (take 86 (ast_file "       2" "     101")) (take 82 com_file)
    idx_file.

(** An index with a heading line that mentions Eros and has no record
    number. *)
Definition headed_idx : list byte :=
  list_byte_of_string
    ("       Eros and others" +:+ LF +:+ "     2 Eros 433" +:+ LF).

Definition headed : world :=
  world_with (ast_file "       2" "     101") com_file headed_idx.

(** Stand-ins for astropy's constructors, to run the module on: a time
    that keeps the float it is made from, a table that keeps the rows it is
    given, and a table of tables that keeps the rows of all of them. *)
Definition toy_Time (x : value) (format scale : string) : result value :=
  match x with
  | VFloat bits => Ok (VTime bits format scale)
  | _ => Raise TypeError
  end.

Definition toy_Table_rows (rs : list (list value)) : result Table :=
  Ok {| colnames := []; rows := rs |}.

Definition toy_Table_of_tables (ts : list Table) : result Table :=
  Ok {| colnames := []; rows := concat (map rows ts) |}.

(** A toy archive format: a content that starts with "PK" is an archive
    and holds the three files of the example. *)
Definition toy_zip : list byte := list_byte_of_string "PK toy archive".

Definition looks_like_toy (c : list byte) : bool :=
  match c with
  | b1 :: b2 :: _ => Byte.eqb b1 "P"%byte && Byte.eqb b2 "K"%byte
  | _ => false
  end.

Definition toy_members (c : list byte)
  : option (list (string * list byte)) :=
  if looks_like_toy c
  then Some [ ("dastcom5/dat/dast5_le.dat", ast_file "       2" "     101");
              ("dastcom5/dat/dcom5_le.dat", com_file);
              ("dastcom5/dat/dastcom.idx", idx_file) ]
  else None.

(** Before any download: a home directory and a server that has the
    archive. *)
Definition before_download : world :=
  {| home := "/home/user";
     files := ∅;
     dirs := {[ "/home/user" ]};
     maxbytes := 2 ^ 43;
     ftp := {[ "ftp://ssd.jpl.nasa.gov/pub/ssd/dastcom5.zip" := toy_zip ]} |}.

(** Before any download, with a server that does not answer. *)
Definition offline : world :=
  {| home := "/home/user";
     files := ∅;
     dirs := {[ "/home/user" ]};
     maxbytes := 2 ^ 43;
     ftp := ∅ |}.


End Scenario.

(** * Properties

    First the facts about the Python and numpy layer that several results
    share, then one result per property of the specification. *)

Import Py Np Schema Astropy Dastcom5.
Local Open Scope string_scope.
Local Open Scope list_scope.
Local Open Scope Z_scope.

(** Case analysis on every integer comparison of the goal. *)
Ltac case_leb :=
  repeat match goal with
         | |- context [(?a <=? ?b)%Z] => destruct (Z.leb_spec a b)
         end.

(** ** Decoding and encoding *)

Lemma rstrip_nul_length (l : list byte) :
  (length (rstrip_nul l) ≤ length l)%nat.
Proof.
  induction l as [|b l IH]; simpl; [lia|].
  destruct (rstrip_nul l) as [|r rs].
  - destruct (Byte.eqb b x00); simpl; lia.
  - simpl in *. lia.
Qed.

Lemma rstrip_nul_pad (l : list byte) :
  rstrip_nul l ++ replicate (length l - length (rstrip_nul l)) x00 = l.
Proof.
  induction l as [|b l IH]; simpl; [reflexivity|].
  pose proof (rstrip_nul_length l) as Hlen.
  destruct (rstrip_nul l) as [|r rs] eqn:E.
  - simpl in IH. rewrite Nat.sub_0_r in IH.
    destruct (Byte.eqb b x00) eqn:Eb.
    + apply byte_dec_bl in Eb. subst b. simpl. by rewrite IH.
    + simpl. rewrite Nat.sub_0_r. by rewrite IH.
  - simpl in *. by rewrite IH.
Qed.

Lemma le_split_signed (bs : list byte) :
  le_split (length bs) (signed (length bs) (le_combine bs)) = bs.
Proof.
  unfold signed. destruct (_ <? _).
  - apply split_le_combine.
  - rewrite le_split_mod.
    replace (le_combine bs - 2 ^ (8 * Z.of_nat (length bs)))
      with (le_combine bs + (-1) * 2 ^ (Z.of_nat (length bs) * 8))
      by (rewrite (Z.mul_comm 8); lia).
    rewrite Z_mod_plus_full, <- le_split_mod. apply split_le_combine.
Qed.

Lemma encode_decode_scalar (t : scalar_type) (bs : list byte) :
  length bs = width t → encode_scalar t (decode_scalar t bs) = Some bs.
Proof.
  intros Hw. destruct t as [w|w|w]; simpl in *; subst w; f_equal.
  - apply le_split_signed.
  - apply split_le_combine.
  - rewrite take_ge by apply rstrip_nul_length. apply rstrip_nul_pad.
Qed.

Lemma encode_decode (d : dtype) :
  ∀ bs : list byte, length bs = itemsize d → encode d (decode d bs) = Some bs.
Proof.
  induction d as [|[n t] d IH]; intros bs Hlen; simpl in *.
  - by destruct bs.
  - rewrite String.eqb_refl.
    rewrite encode_decode_scalar by (rewrite length_take; lia).
    rewrite IH by (rewrite length_drop; lia).
    by rewrite take_drop.
Qed.

Lemma names_decode (d : dtype) (bs : list byte) :
  map fst (decode d bs) = names d.
Proof.
  revert bs. induction d as [|[n t] d IH]; intros bs; simpl; [done|].
  by rewrite IH.
Qed.

Lemma field_decode (name : string) (d : dtype) :
  ∀ (bs : list byte) (t : scalar_type),
    lookup_type name d = Some t →
    ∃ fb, field name (decode d bs) = Ok (decode_scalar t fb).
Proof.
  induction d as [|[n t'] d IH]; intros bs t Hl; simpl in *; [done|].
  destruct (String.eqb n name).
  - injection Hl as ->. eauto.
  - eauto.
Qed.

Lemma fields_of_decode (ns : list string) (d : dtype) (bs : list byte) :
  Forall (λ n, is_Some (lookup_type n d)) ns →
  ∃ r, fields_of ns (decode d bs) = Ok r ∧ map fst r = ns.
Proof.
  induction 1 as [|n ns [t Ht] _ [r [IH1 IH2]]]; simpl.
  - by exists [].
  - destruct (field_decode n d bs t Ht) as [fb ->]. simpl.
    rewrite IH1. simpl. eexists. split; [done|]. simpl. by rewrite IH2.
Qed.

(** ** Reading items from a file *)

Lemma fread_short (d : dtype) (n : nat) (bs : list byte) :
  (length bs < itemsize d)%nat → fread d n bs = [].
Proof.
  intros H. destruct n; simpl; [done|].
  destruct (Nat.leb_spec (itemsize d) (length bs)); [lia|done].
Qed.

Lemma fread_one (d : dtype) (bs : list byte) :
  (itemsize d ≤ length bs)%nat →
  fread d 1 bs = [decode d (take (itemsize d) bs)].
Proof.
  intros H. simpl.
  destruct (Nat.leb_spec (itemsize d) (length bs)); [done|lia].
Qed.

Lemma fread_lookup (d : dtype) (n : nat) :
  ∀ (bs : list byte) (i : nat) (r : record),
    fread d n bs !! i = Some r →
    r = decode d (take (itemsize d) (drop (i * itemsize d) bs))
    ∧ ((i + 1) * itemsize d ≤ length bs)%nat.
Proof.
  induction n as [|n IH]; intros bs i r H; simpl in H; [done|].
  destruct (Nat.leb_spec (itemsize d) (length bs)) as [Hle|Hlt]; [|done].
  destruct i as [|i]; simpl in H.
  - injection H as <-. simpl. split; [done|lia].
  - apply IH in H as [-> Hlen]. rewrite length_drop in Hlen.
    rewrite drop_drop. split; [reflexivity|lia].
Qed.

(** A read of one item: a whole item if that many bytes are left at the
    position, nothing otherwise. *)
Lemma fromfile_one (d : dtype) (content : list byte) (pos : Z) :
  fromfile d 1 content pos =
    Ok (if (itemsize d <=? length content - Z.to_nat pos)%nat
        then [decode d (take (itemsize d) (drop (Z.to_nat pos) content))]
        else []).
Proof. unfold fromfile. simpl. by rewrite length_drop. Qed.

Lemma itemsize_AST : itemsize AST_DTYPE = 835%nat.
Proof. reflexivity. Qed.

Lemma itemsize_COM : itemsize COM_DTYPE = 976%nat.
Proof. reflexivity. Qed.

Lemma AST_is_not_COM : AST_DTYPE ≠ COM_DTYPE.
Proof. intros H. apply (f_equal length) in H. vm_compute in H. lia. Qed.

(** ** Headers and record resolution *)

Lemma read_headers_of_files (w : world) (a c : list byte) :
  files w !! AST_DB_PATH w = Some a →
  files w !! COM_DB_PATH w = Some c →
  read_headers w =
    Ok (fread ast_header_dtype 1 a, fread com_header_dtype 1 c).
Proof.
  intros Ha Hc. unfold read_headers, open.
  fold (AST_DB_PATH w). fold (COM_DB_PATH w). rewrite Ha, Hc. reflexivity.
Qed.

(** The nested test of [read_record], with the header values named. *)
Lemma locate_record_nested (w : world) (ast_header com_header : ndarray)
    (ENDPT1 ENDPT2 IBIAS0 IBIAS1 IBIAS2 r : Z) :
  read_headers w = Ok (ast_header, com_header) →
  header_item "ENDPT1" ast_header ≫= int_of_value = Ok ENDPT1 →
  header_item "ENDPT2" ast_header ≫= int_of_value = Ok ENDPT2 →
  header_item "IBIAS0" ast_header ≫= as_int = Ok IBIAS0 →
  header_item "IBIAS1" ast_header ≫= as_int = Ok IBIAS1 →
  header_item "IBIAS2" com_header ≫= as_int = Ok IBIAS2 →
  locate_record w r =
    Ok (if r <=? ENDPT2
        then if r <=? ENDPT1 then Spec.numbered w IBIAS0 r
             else Spec.unnumbered w IBIAS1 r
        else Spec.comet w IBIAS2 r).
Proof.
  intros Hh H1 H2 H0 Hb1 Hb2. unfold locate_record.
  rewrite Hh. simpl. rewrite H2. simpl.
  destruct (r <=? ENDPT2).
  - rewrite H1. simpl. destruct (r <=? ENDPT1).
    + rewrite H0. reflexivity.
    + rewrite Hb1. reflexivity.
  - rewrite Hb2. reflexivity.
Qed.

(** Whatever the headers hold, a record that is located lies at a
    multiple of its schema's item size, in the file of that schema. *)
Lemma locate_record_cases (w : world) (r : Z) (t : target) :
  locate_record w r = Ok t →
  (path t = AST_DB_PATH w ∧ schema t = AST_DTYPE
   ∧ ∃ k, phis_rec t = Z.of_nat (itemsize AST_DTYPE) * k)
  ∨ (path t = COM_DB_PATH w ∧ schema t = COM_DTYPE
     ∧ ∃ k, phis_rec t = Z.of_nat (itemsize COM_DTYPE) * k).
Proof.
  unfold locate_record. destruct (read_headers w) as [[ah ch]|]; [|done].
  simpl. destruct (header_item "ENDPT2" ah ≫= int_of_value) as [e2|]; [|done].
  simpl. destruct (r <=? e2).
  - destruct (header_item "ENDPT1" ah ≫= int_of_value) as [e1|]; [|done].
    simpl. destruct (r <=? e1).
    + destruct (header_item "IBIAS0" ah ≫= as_int) as [b|]; [|done].
      simpl. intros [= <-]. left. simpl. eauto.
    + destruct (header_item "IBIAS1" ah ≫= as_int) as [b|]; [|done].
      simpl. intros [= <-]. left. simpl. eauto.
  - destruct (header_item "IBIAS2" ch ≫= as_int) as [b|]; [|done].
    simpl. intros [= <-]. right. simpl. eauto.
Qed.

(** The second half of [read_record] once the target is known. *)
Lemma read_record_at (w : world) (r : Z) (t : target) (c : list byte) :
  locate_record w r = Ok t →
  files w !! path t = Some c →
  read_record w r = pos ← seek w (phis_rec t); fromfile (schema t) 1 c pos.
Proof.
  intros Hl Hc. unfold read_record, open. rewrite Hl. simpl.
  rewrite Hc. reflexivity.
Qed.

Lemma seek_ok (w : world) (offset : Z) :
  0 ≤ offset → offset ≤ maxbytes w → offset < 2 ^ 63 →
  seek w offset = Ok offset.
Proof.
  intros H0 H1 H2. unfold seek.
  destruct (Z.ltb_spec offset (- 2 ^ 63)); [lia|].
  destruct (Z.leb_spec (2 ^ 63) offset); [lia|]. cbn [orb].
  destruct (Z.ltb_spec offset 0); [lia|].
  destruct (Z.ltb_spec (maxbytes w) offset); [lia|done].
Qed.




(** C1, as amended.  For headers whose markers are in order
    (ENDPT1 ≤ ENDPT2), every record number is resolved by the trichotomy of
    the specification: up to ENDPT1 the asteroid file at
    [itemsize AST_DTYPE * (r - IBIAS0 - 1)], above ENDPT1 and up to ENDPT2
    the asteroid file at [itemsize AST_DTYPE * (r - IBIAS1 - 1)], above
    ENDPT2 the comet file at [itemsize COM_DTYPE * (r - IBIAS2 - 1)].
    ENDPT1 itself is resolved as numbered; ENDPT1 + 1 is resolved as
    unnumbered when ENDPT1 < ENDPT2 and as a comet when ENDPT1 = ENDPT2. *)
Theorem read_record_trichotomy (w : world) (ast_header com_header : ndarray)
    (ENDPT1 ENDPT2 IBIAS0 IBIAS1 IBIAS2 : Z) :
  read_headers w = Ok (ast_header, com_header) →
  header_item "ENDPT1" ast_header ≫= int_of_value = Ok ENDPT1 →
  header_item "ENDPT2" ast_header ≫= int_of_value = Ok ENDPT2 →
  header_item "IBIAS0" ast_header ≫= as_int = Ok IBIAS0 →
  header_item "IBIAS1" ast_header ≫= as_int = Ok IBIAS1 →
  header_item "IBIAS2" com_header ≫= as_int = Ok IBIAS2 →
  ENDPT1 ≤ ENDPT2 →
  (∀ r, locate_record w r =
          Ok (Spec.trichotomy w ENDPT1 ENDPT2 IBIAS0 IBIAS1 IBIAS2 r))
  ∧ locate_record w ENDPT1 = Ok (Spec.numbered w IBIAS0 ENDPT1)
  ∧ (ENDPT1 < ENDPT2 →
     locate_record w (ENDPT1 + 1) = Ok (Spec.unnumbered w IBIAS1 (ENDPT1 + 1)))
  ∧ (ENDPT1 = ENDPT2 →
     locate_record w (ENDPT1 + 1) = Ok (Spec.comet w IBIAS2 (ENDPT1 + 1))).
Proof.
  intros Hh H1 H2 H0 Hb1 Hb2 Hord.
  pose proof (λ r, locate_record_nested w _ _ _ _ _ _ _ r Hh H1 H2 H0 Hb1 Hb2)
    as N.
  repeat split.
  - intros r. rewrite N. unfold Spec.trichotomy. case_leb; try done; lia.
  - rewrite N. case_leb; try done; lia.
  - intros Hlt. rewrite N. case_leb; try done; lia.
  - intros Heq. rewrite N. case_leb; try done; lia.
Qed.

Lemma read_record_trichotomy_witness :
  (∀ r, locate_record Example.archive r =
          Ok (Spec.trichotomy Example.archive 2 101 (-1) 97 199 r))
  ∧ locate_record Example.archive 2 = Ok (Spec.numbered Example.archive (-1) 2)
  ∧ locate_record Example.archive 3 = Ok (Spec.unnumbered Example.archive 97 3).
Proof.
  destruct (read_headers Example.archive) as [[ah ch]|] eqn:Hh;
    [|vm_compute in Hh; discriminate].
  assert (Ok (ah, ch) = read_headers Example.archive) as E by (symmetry; exact Hh).
  vm_compute in E. injection E as -> ->.
  destruct (read_record_trichotomy Example.archive _ _ 2 101 (-1) 97 199 Hh)
    as (T & N & U & _); try (vm_compute; reflexivity).
  - vm_compute. discriminate.
  - split; [exact T|]. split; [exact N|]. apply U. reflexivity.
Defined.

(** C1 as stated fails in two ways.  Without unnumbered asteroids
    (ENDPT1 = ENDPT2 = 2) the record ENDPT1 + 1 is not resolved as
    unnumbered but as a comet; and with markers out of order (ENDPT1 = 10,
    ENDPT2 = 5) record 7, which is ≤ ENDPT1, is not resolved as numbered. *)
Lemma read_record_trichotomy_counterexample :
  (∃ ah ch,
     read_headers Example.no_unnumbered = Ok (ah, ch)
     ∧ header_item "ENDPT1" ah ≫= int_of_value = Ok 2
     ∧ header_item "ENDPT2" ah ≫= int_of_value = Ok 2
     ∧ header_item "IBIAS1" ah ≫= as_int = Ok 97
     ∧ locate_record Example.no_unnumbered (2 + 1)
       ≠ Ok (Spec.unnumbered Example.no_unnumbered 97 (2 + 1)))
  ∧ (∃ ah ch,
       read_headers Example.disordered = Ok (ah, ch)
       ∧ header_item "ENDPT1" ah ≫= int_of_value = Ok 10
       ∧ header_item "ENDPT2" ah ≫= int_of_value = Ok 5
       ∧ locate_record Example.disordered 7
         ≠ Ok (Spec.trichotomy Example.disordered 10 5 (-1) 97 199 7)).
Proof.
  split; do 2 eexists;
    (split; [vm_compute; reflexivity|]);
    repeat (split; [vm_compute; reflexivity|]);
    intros H; vm_compute in H; discriminate.
Qed.


(** A located record whose item lies inside the file is read whole. *)
Lemma read_record_item (w : world) (r : Z) (t : target) (c : list byte) :
  locate_record w r = Ok t →
  files w !! path t = Some c →
  0 ≤ phis_rec t → phis_rec t ≤ maxbytes w → phis_rec t < 2 ^ 63 →
  phis_rec t + Z.of_nat (itemsize (schema t)) ≤ Z.of_nat (length c) →
  read_record w r =
    Ok [decode (schema t)
          (take (itemsize (schema t)) (drop (Z.to_nat (phis_rec t)) c))].
Proof.
  intros Hl Hc H0 H1 H2 Hin. rewrite (read_record_at w r t c Hl Hc).
  rewrite seek_ok by done. simpl. rewrite fromfile_one.
  destruct (Nat.leb_spec (itemsize (schema t))
              (length c - Z.to_nat (phis_rec t))); [done|lia].
Qed.




(** C3, as amended.  The asteroid schema has 117 fields and an item size of
    835 bytes (not 144).  That size is the stride of every offset computed
    into the asteroid file, and the number of bytes that [asteroid_db]
    skips before the first record, which is where the header lies. *)
Theorem asteroid_record_size (w : world) (r : Z) (t : target)
    (c : list byte) :
  locate_record w r = Ok t →
  schema t = AST_DTYPE →
  files w !! AST_DB_PATH w = Some c →
  length AST_DTYPE = 117%nat
  ∧ itemsize AST_DTYPE = 835%nat
  ∧ path t = AST_DB_PATH w
  ∧ (∃ k, phis_rec t = Z.of_nat (itemsize AST_DTYPE) * k)
  ∧ asteroid_db w =
      (pos ← seek w (Z.of_nat (itemsize AST_DTYPE));
       fromfile AST_DTYPE (-1) c pos).
Proof.
  intros Hl Hs Hc. split; [reflexivity|]. split; [reflexivity|].
  apply locate_record_cases in Hl as [(Hp & _ & Hk)|(_ & Hs' & _)].
  - split; [done|]. split; [done|].
    unfold asteroid_db, open. by rewrite Hc.
  - rewrite Hs in Hs'. by destruct AST_is_not_COM.
Qed.

Lemma asteroid_record_size_witness :
  itemsize AST_DTYPE = 835%nat
  ∧ (∃ k, phis_rec (Spec.numbered Example.archive (-1) 2)
          = Z.of_nat (itemsize AST_DTYPE) * k)
  ∧ asteroid_db Example.archive =
      (pos ← seek Example.archive (Z.of_nat (itemsize AST_DTYPE));
       fromfile AST_DTYPE (-1) (Example.ast_file "       2" "     101") pos).
Proof.
  destruct (asteroid_record_size Example.archive 2
              (Spec.numbered Example.archive (-1) 2)
              (Example.ast_file "       2" "     101"))
    as (_ & Hsz & _ & Hk & Hdb); [vm_compute; reflexivity..|].
  exact (conj Hsz (conj Hk Hdb)).
Defined.

(** C3 as stated fails: the item size of the asteroid schema is not 144. *)
Lemma asteroid_record_size_counterexample : itemsize AST_DTYPE ≠ 144%nat.
Proof. vm_compute. discriminate. Qed.

(** C6, as amended.  When both files exist, [read_headers] raises nothing
    however short they are.  A file shorter than its header layout (86
    bytes for asteroids, 82 for comets) yields an empty header array, never
    a partly filled one; with an empty asteroid header every later
    [read_record] stops with [IndexError]. *)
Theorem read_headers_short_file (w : world) (a c : list byte) :
  files w !! AST_DB_PATH w = Some a →
  files w !! COM_DB_PATH w = Some c →
  ∃ ast_header com_header,
    read_headers w = Ok (ast_header, com_header)
    ∧ ((length a < itemsize ast_header_dtype)%nat →
       ast_header = [] ∧ ∀ r, read_record w r = Raise IndexError)
    ∧ ((length c < itemsize com_header_dtype)%nat → com_header = [])
    ∧ ((itemsize ast_header_dtype ≤ length a)%nat →
       ast_header = [decode ast_header_dtype (take 86 a)])
    ∧ ((itemsize com_header_dtype ≤ length c)%nat →
       com_header = [decode com_header_dtype (take 82 c)]).
Proof.
  intros Ha Hc. pose proof (read_headers_of_files w a c Ha Hc) as Hh.
  do 2 eexists. split; [exact Hh|]. repeat split.
  - by apply fread_short.
  - intros r. unfold read_record, locate_record. rewrite Hh.
    rewrite (fread_short ast_header_dtype 1 a) by done. reflexivity.
  - by apply fread_short.
  - intros H. by rewrite fread_one.
  - intros H. by rewrite fread_one.
Qed.

Lemma read_headers_short_file_witness :
  ∃ com_header,
    read_headers Example.truncated = Ok ([], com_header)
    ∧ ∀ r, read_record Example.truncated r = Raise IndexError.
Proof.
  destruct (read_headers_short_file Example.truncated
              (take 10 (Example.ast_file "       2" "     101"))
              Example.com_file)
    as (ah & ch & Hh & Hshort & _); [vm_compute; reflexivity..|].
  destruct Hshort as [-> Hr]; [vm_compute; lia|].
  exists ch. split; [exact Hh|exact Hr].
Defined.

(** C6 as stated fails: on an asteroid file of ten bytes, shorter than any
    header, [read_headers] raises nothing and returns an (empty) header
    array. *)
Lemma read_headers_short_file_counterexample :
  files Example.truncated !! AST_DB_PATH Example.truncated
    = Some (take 10 (Example.ast_file "       2" "     101"))
  ∧ ¬ raises (read_headers Example.truncated)
  ∧ fst <$> read_headers Example.truncated = Ok [].
Proof.
  split; [vm_compute; reflexivity|]. split; [by vm_compute|].
  vm_compute. reflexivity.
Qed.

(** C7.  For a byte block of exactly the item size of the asteroid or the
    comet schema, decoding it and encoding the decoded fields again in the
    schema's layout gives the original bytes back; the decoded record has
    one value per field of the schema, in order. *)
Theorem decode_encode_roundtrip (d : dtype) (bs : list byte) :
  d = AST_DTYPE ∨ d = COM_DTYPE →
  length bs = itemsize d →
  encode d (decode d bs) = Some bs ∧ map fst (decode d bs) = names d.
Proof.
  intros _ Hlen. split; [by apply encode_decode|apply names_decode].
Qed.

Lemma decode_encode_roundtrip_witness :
  encode AST_DTYPE (decode AST_DTYPE (Example.body 835 1))
    = Some (Example.body 835 1)
  ∧ encode COM_DTYPE (decode COM_DTYPE (Example.body 976 201))
    = Some (Example.body 976 201).
Proof.
  split.
  - apply (decode_encode_roundtrip AST_DTYPE (Example.body 835 1));
      [by left|vm_compute; reflexivity].
  - apply (decode_encode_roundtrip COM_DTYPE (Example.body 976 201));
      [by right|vm_compute; reflexivity].
Defined.

(** C8.  When the directory of the archive exists and no update is asked
    for, the download raises [FileExistsError] (the failure that the
    specification lists for an archive already present) and leaves the file
    system as it found it: nothing is created, changed or removed. *)
Theorem download_refuses_existing (looks_like_zip : list byte → bool)
    (members : list byte → option (list (string * list byte))) (w : world) :
  isdir w (join (SBPY_LOCAL_PATH w) "dastcom5") = true →
  download_dastcom5 looks_like_zip members false w = (Raise FileExistsError, w).
Proof. intros H. unfold download_dastcom5. by rewrite H. Qed.

Lemma download_refuses_existing_witness :
  download_dastcom5 (λ _, false) (λ _, None) false Example.archive
    = (Raise FileExistsError, Example.archive).
Proof.
  apply (download_refuses_existing (λ _, false) (λ _, None) Example.archive).
  vm_compute. reflexivity.
Defined.

(** ** The orbit table *)






(** ** The name search *)

Lemma list_ascii_of_string_app (s1 s2 : string) :
  list_ascii_of_string (s1 +:+ s2)
  = list_ascii_of_string s1 ++ list_ascii_of_string s2.
Proof. induction s1 as [|c s1 IH]; simpl; [done|]. by rewrite IH. Qed.

Lemma casefold_char_not_special (c : ascii) :
  Re.is_special c = false → Re.is_special (casefold_char c) = false.
Proof.
  destruct c as [[] [] [] [] [] [] [] []]; vm_compute; congruence.
Qed.

Lemma parse_loop_literal (stack : list Re.frame) (cur : Re.frame) (c : ascii)
    (p : list ascii) :
  Re.is_special c = false →
  Re.parse_loop stack cur (c :: p)
  = Re.parse_loop stack (Re.push (Re.Lit c) cur) p.
Proof.
  intros H. unfold Re.parse_loop at 1; fold Re.parse_loop. by rewrite H.
Qed.

Lemma parse_loop_literals (q : list ascii) :
  ∀ (stack : list Re.frame) (cur : Re.frame) (p : list ascii),
    forallb (λ c, negb (Re.is_special c)) q = true →
    Re.parse_loop stack cur (q ++ p)
    = Re.parse_loop stack
        {| Re.branches := Re.branches cur;
           Re.items := rev (map Re.Lit q) ++ Re.items cur |} p.
Proof.
  induction q as [|c q IH]; intros stack cur p H.
  - by destruct cur.
  - simpl in H. apply andb_prop in H as [Hc Hq]. apply negb_true_iff in Hc.
    rewrite <- app_comm_cons, parse_loop_literal by done.
    rewrite IH by done. simpl. by rewrite <- app_assoc.
Qed.

Lemma parse_loop_boundary (stack : list Re.frame) (cur : Re.frame)
    (p : list ascii) :
  Re.parse_loop stack cur ("\"%char :: "b"%char :: p)
  = Re.parse_loop stack (Re.push (Re.At Re.at_boundary) cur) p.
Proof. reflexivity. Qed.

Lemma seq_of_literals (q : list ascii) (tail : Re.regex) :
  fold_left (λ acc r, Re.Cat r acc) (rev (map Re.Lit q)) tail
  = fold_right (λ c acc, Re.Cat (Re.Lit c) acc) tail q.
Proof.
  rewrite <- fold_left_rev_right, rev_involutive.
  induction q as [|c q IH]; simpl; [done|]. by rewrite IH.
Qed.

Lemma ends_literals (q : list ascii) (tail : Re.regex) (s : list ascii) :
  ∀ i : nat,
    Re.ends (fold_right (λ c acc, Re.Cat (Re.Lit c) acc) tail q) s i
    = if Spec.starts_with q (drop i s)
      then Re.ends tail s (i + length q)
      else [].
Proof.
  induction q as [|c q IH]; intros i; simpl.
  - by rewrite Nat.add_0_r.
  - destruct (s !! i) as [d|] eqn:Hd.
    + rewrite (drop_S _ _ _ Hd). destruct (Ascii.eqb c d); simpl; [|done].
      rewrite app_nil_r, IH. by rewrite Nat.add_succ_r.
    + apply lookup_ge_None in Hd. by rewrite drop_ge.
Qed.

Lemma matches_from_literal (q s : list ascii) (i : nat) :
  Re.matches_from (Re.literal_regex q) s i = Spec.whole_word_at q s i.
Proof.
  unfold Re.matches_from, Re.literal_regex, Spec.whole_word_at. simpl.
  destruct (Re.boundary s i); simpl; [|done].
  rewrite app_nil_r, ends_literals.
  destruct (Spec.starts_with q (drop i s)); simpl; [|done].
  destruct (Re.boundary s (i + length q)); simpl; done.
Qed.

Lemma existsb_eq {A} (f g : A → bool) (l : list A) :
  (∀ x, f x = g x) → existsb f l = existsb g l.
Proof. intros H. induction l as [|x l IH]; simpl; [done|]. by rewrite H, IH. Qed.

Section LiteralQuery.

(** A query whose characters are all taken literally. *)
Variable name : string.
Hypothesis literal : Re.literal_text name = true.

Lemma casefold_literal :
  forallb (λ c, negb (Re.is_special c)) (list_ascii_of_string (casefold name))
  = true.
Proof.
  pose proof literal as H. revert H. unfold Re.literal_text, casefold.
  rewrite list_ascii_of_string_of_list_ascii.
  induction (list_ascii_of_string name) as [|c l IH]; simpl; [done|].
  unfold Re.literal_char at 1.
  intros [[Hc _]%andb_prop Hl]%andb_prop.
  apply negb_true_iff in Hc.
  by rewrite (casefold_char_not_special c Hc), IH.
Qed.

(** The query compiles to the whole-word pattern. *)
Lemma compile_literal :
  Re.compile ("\b" +:+ casefold name +:+ "\b")
  = Re.Compiled (Re.literal_regex (list_ascii_of_string (casefold name))).
Proof.
  unfold Re.compile. rewrite !list_ascii_of_string_app.
  change (list_ascii_of_string "\b") with ["\"%char; "b"%char].
  simpl app.
  rewrite parse_loop_boundary, parse_loop_literals by apply casefold_literal.
  rewrite parse_loop_boundary. simpl.
  unfold Re.finish, Re.seq_of, Re.literal_regex. simpl.
  rewrite fold_left_app. simpl. by rewrite seq_of_literals.
Qed.

Lemma search_literal (line : string) :
  Re.search ("\b" +:+ casefold name +:+ "\b") (casefold line)
  = Re.Found (Spec.whole_word name line).
Proof.
  unfold Re.search. rewrite compile_literal.
  unfold Re.search_compiled, Spec.whole_word. f_equal.
  apply existsb_eq. intros i. apply matches_from_literal.
Qed.

End LiteralQuery.

(** The loop over the index for a pattern that compiles, and for one that
    does not. *)
Lemma scan_index_compiled (name : string) (r : Re.regex) (inF : list string) :
  Re.compile ("\b" +:+ casefold name +:+ "\b") = Re.Compiled r →
  ∀ lines,
    scan_index name inF lines
    = Some (Ok (lines
                ++ List.filter
                     (λ line, Re.search_compiled r
                                (list_ascii_of_string (casefold line)))
                     inF)).
Proof.
  intros Hc. induction inF as [|line inF IH]; intros lines; simpl.
  - by rewrite app_nil_r.
  - unfold Re.search. rewrite Hc.
    destruct (Re.search_compiled r _); rewrite IH; [|done].
    by rewrite <- app_assoc.
Qed.

Lemma scan_index_error (name : string) (why : re_why) (line : string)
    (inF : list string) (lines : list string) :
  Re.compile ("\b" +:+ casefold name +:+ "\b") = Re.PatternError why →
  scan_index name (line :: inF) lines = Some (Raise (re_error why)).
Proof. intros Hc. simpl. unfold Re.search. by rewrite Hc. Qed.

Lemma string_record_from_name_open (w : world) (name : string)
    (inF : list byte) :
  files w !! join (DBS_LOCAL_PATH w) "dastcom.idx" = Some inF →
  string_record_from_name w name = scan_index name (text_lines inF) [].
Proof. intros H. unfold string_record_from_name, open. by rewrite H. Qed.

(** C4, as amended.  For every query made of ASCII characters that are not
    special in a pattern, and every ASCII index, the name search returns
    exactly the lines in which the folded query occurs with a word boundary
    on both sides, all of them, in the order of the index. *)
Theorem name_search_whole_word (w : world) (name : string)
    (inF : list byte) :
  Re.literal_text name = true →
  files w !! join (DBS_LOCAL_PATH w) "dastcom.idx" = Some inF →
  Re.ascii_bytes inF = true →
  string_record_from_name w name
  = Some (Ok (List.filter (Spec.whole_word name) (text_lines inF))).
Proof.
  intros Hn Hf _. rewrite (string_record_from_name_open w name inF Hf).
  rewrite (scan_index_compiled name _ _ (compile_literal name Hn)). simpl.
  do 2 f_equal. apply filter_ext. intros line.
  unfold Spec.whole_word, Re.search_compiled.
  apply existsb_eq. intros i. apply matches_from_literal.
Qed.

(** In the example index "Eros" finds the line of Eros and not the line
    that holds "Aeros" and "Erosion". *)
Lemma name_search_whole_word_witness :
  string_record_from_name Example.archive "Eros"
  = Some (Ok ["     2 Eros 433" +:+ Example.LF]).
Proof.
  etrans.
  - apply (name_search_whole_word Example.archive "Eros" Example.idx_file);
      vm_compute; reflexivity.
  - vm_compute. reflexivity.
Defined.

(** C4 as stated fails for a query with a special character: "a.c" is
    not empty, it does not occur in the line of record 201, and the search
    returns that line. *)
Lemma name_search_whole_word_counterexample :
  Spec.whole_word "a.c" ("   201 abc" +:+ Example.LF) = false
  ∧ string_record_from_name Example.archive "a.c"
    = Some (Ok ["   201 abc" +:+ Example.LF]).
Proof. split; vm_compute; reflexivity. Qed.

(** On an empty index no pattern is ever compiled. *)
Lemma name_search_empty_index (w : world) (name : string) (inF : list byte) :
  files w !! join (DBS_LOCAL_PATH w) "dastcom.idx" = Some inF →
  text_lines inF = [] →
  string_record_from_name w name = Some (Ok []).
Proof.
  intros Hf He. rewrite (string_record_from_name_open w name inF Hf).
  by rewrite He.
Qed.

(** C9.  The query is used as a pattern.  On any index with at least one
    line the query "(" makes the search raise [re.error] (missing
    parenthesis) instead of returning a list; and the query "a.c" returns
    every line that folds to "   201 abc", in which "a.c" does not occur
    as a word. *)
Theorem name_search_is_a_pattern (w : world) (inF : list byte) :
  files w !! join (DBS_LOCAL_PATH w) "dastcom.idx" = Some inF →
  text_lines inF ≠ [] →
  string_record_from_name w "(" = Some (Raise (re_error missing_paren))
  ∧ ∃ lines,
      string_record_from_name w "a.c" = Some (Ok lines)
      ∧ ∀ line,
          In line (text_lines inF) →
          casefold line = "   201 abc" +:+ Example.LF →
          In line lines ∧ Spec.whole_word "a.c" line = false.
Proof.
  intros Hf Hne. rewrite !(string_record_from_name_open w _ inF Hf). split.
  - destruct (text_lines inF) as [|line rest]; [done|].
    by apply scan_index_error.
  - eexists. split.
    + apply scan_index_compiled. vm_compute. reflexivity.
    + intros line Hin Hfold. split.
      * simpl. apply filter_In. split; [done|]. rewrite Hfold.
        vm_compute. reflexivity.
      * unfold Spec.whole_word. rewrite Hfold. vm_compute. reflexivity.
Qed.

Lemma name_search_is_a_pattern_witness :
  string_record_from_name Example.archive "("
  = Some (Raise (re_error missing_paren))
  ∧ ∃ lines,
      string_record_from_name Example.archive "a.c" = Some (Ok lines)
      ∧ In ("   201 abc" +:+ Example.LF) lines.
Proof.
  destruct (name_search_is_a_pattern Example.archive Example.idx_file)
    as [Hparen (lines & Hdot & Hline)];
    [vm_compute; reflexivity|vm_compute; discriminate|].
  split; [exact Hparen|]. exists lines. split; [exact Hdot|].
  apply (Hline ("   201 abc" +:+ Example.LF)).
  - vm_compute. tauto.
  - vm_compute. reflexivity.
Defined.

(** ** The bulk view *)

Lemma fread_decoded (d : dtype) (n : nat) :
  ∀ bs : list byte, Forall (λ r, ∃ fb, r = decode d fb) (fread d n bs).
Proof.
  induction n as [|n IH]; intros bs; simpl; [constructor|].
  destruct (_ <=? _)%nat; constructor; eauto.
Qed.

Lemma getfields_total (ns : list string) (d : dtype) (a : ndarray) :
  Forall (λ n, is_Some (lookup_type n d)) ns →
  Forall (λ r, ∃ fb, r = decode d fb) a →
  ∃ a', getfields ns a = Ok a' ∧ length a' = length a.
Proof.
  intros Hns. induction 1 as [|r a [fb ->] _ (a' & IH & Hlen)]; simpl.
  - by exists [].
  - destruct (fields_of_decode ns d fb Hns) as (r' & -> & _). simpl.
    rewrite IH. simpl. eexists. split; [done|]. simpl. by rewrite Hlen.
Qed.

Lemma getfields_lookup (ns : list string) (a : ndarray) :
  ∀ (a' : ndarray) (i : nat) (r' : record),
    getfields ns a = Ok a' → a' !! i = Some r' →
    ∃ r, a !! i = Some r ∧ fields_of ns r = Ok r'.
Proof.
  induction a as [|r a IH]; intros a' i r' Hg Hi; simpl in Hg.
  - injection Hg as <-. done.
  - destruct (fields_of ns r) as [r1|] eqn:Hr; [|done]. simpl in Hg.
    destruct (getfields ns a) as [a1|] eqn:Ha; [|done]. simpl in Hg.
    injection Hg as <-. destruct i as [|i]; simpl in *.
    + injection Hi as <-. eauto.
    + eauto.
Qed.

Lemma fromfile_all (d : dtype) (c : list byte) (pos : Z) (a : ndarray) :
  fromfile d (-1) c pos = Ok a →
  ∃ n, a = fread d n (drop (Z.to_nat pos) c).
Proof.
  unfold fromfile. simpl. destruct (_ <? 0); [done|].
  intros [= <-]. eauto.
Qed.

Lemma seek_returns (w : world) (offset pos : Z) :
  seek w offset = Ok pos → pos = offset.
Proof.
  unfold seek. destruct (_ || _); [done|].
  repeat destruct (_ <? _); congruence.
Qed.

Lemma asteroid_db_rows (w : world) (adb : ndarray) :
  asteroid_db w = Ok adb →
  ∃ c n, files w !! AST_DB_PATH w = Some c
         ∧ adb = fread AST_DTYPE n (drop 835 c).
Proof.
  unfold asteroid_db, open.
  destruct (files w !! AST_DB_PATH w) as [c|]; [|by repeat case_match].
  simpl. destruct (seek w 835) as [pos|] eqn:Hs; [|done]. simpl.
  apply seek_returns in Hs as ->. intros [n ->]%fromfile_all. eauto.
Qed.

Lemma comet_db_rows (w : world) (cdb : ndarray) :
  comet_db w = Ok cdb →
  ∃ c n, files w !! COM_DB_PATH w = Some c
         ∧ cdb = fread COM_DTYPE n (drop 976 c).
Proof.
  unfold comet_db, open.
  destruct (files w !! COM_DB_PATH w) as [c|]; [|by repeat case_match].
  simpl. destruct (seek w 976) as [pos|] eqn:Hs; [|done]. simpl.
  apply seek_returns in Hs as ->. intros [n ->]%fromfile_all. eauto.
Qed.

(** Row [i] of a bulk read that starts after one item is the record that
    [read_record] returns for a number located at item [i + 1]. *)
Lemma bulk_row_is_record (w : world) (d : dtype) (c : list byte) (n i : nat)
    (body : record) (r : Z) (t : target) :
  fits w →
  fread d n (drop (itemsize d) c) !! i = Some body →
  locate_record w r = Ok t →
  files w !! path t = Some c →
  schema t = d →
  phis_rec t = Z.of_nat (itemsize d) * (Z.of_nat i + 1) →
  read_record w r = Ok [body].
Proof.
  intros [Hmax Hfit] Hi Hl Hc Hs Hp.
  apply fread_lookup in Hi as [-> Hlen]. rewrite length_drop in Hlen.
  pose proof (Hfit _ _ Hc) as Hc'.
  rewrite (read_record_item w r t c Hl Hc); rewrite ?Hs, ?Hp; try lia.
  rewrite drop_drop.
  assert (Z.of_nat (itemsize d + i * itemsize d)
          = Z.of_nat (itemsize d) * (Z.of_nat i + 1)) as <- by lia.
  by rewrite Nat2Z.id.
Qed.

Lemma kept_names_AST :
  kept_names (names AST_DTYPE)
  = ["NO"; "NOBS"; "OBSFRST"; "OBSLAST"; "EPOCH"; "CALEPO"; "MA"; "W";
     "OM"; "IN"; "EC"; "A"; "QR"; "TP"; "TPCAL"; "TPFRAC"; "SOLDAT";
     "DESIG"; "IREF"; "ASTNAM"].
Proof. reflexivity. Qed.

Lemma kept_names_COM :
  kept_names (names COM_DTYPE)
  = ["NO"; "NOBS"; "OBSFRST"; "OBSLAST"; "EPOCH"; "CALEPO"; "MA"; "W";
     "OM"; "IN"; "EC"; "A"; "QR"; "TP"; "TPCAL"; "TPFRAC"; "SOLDAT";
     "DESIG"; "IREF"; "COMNAM"].
Proof. reflexivity. Qed.

Lemma kept_names_AST_fields :
  Forall (λ n, is_Some (lookup_type n AST_DTYPE)) (kept_names (names AST_DTYPE)).
Proof.
  rewrite kept_names_AST.
  repeat (apply Forall_cons; split; [eexists; reflexivity|]). constructor.
Qed.

Lemma kept_names_COM_fields :
  Forall (λ n, is_Some (lookup_type n COM_DTYPE)) (kept_names (names COM_DTYPE)).
Proof.
  rewrite kept_names_COM.
  repeat (apply Forall_cons; split; [eexists; reflexivity|]). constructor.
Qed.

(** A row of a table made from an array is the row of values of the
    element at the same index. *)
Lemma Table_of_array_row (ns : list string) (a : ndarray) (i : nat)
    (row : list value) :
  rows (Table_of_array ns a) !! i = Some row →
  ∃ r, a !! i = Some r ∧ row = map snd r.
Proof.
  simpl. rewrite list_lookup_fmap.
  intros (r & Hr & ->)%fmap_Some. eauto.
Qed.

Lemma archive_fits : fits Example.archive.
Proof.
  split; [by vm_compute|]. intros p c H.
  unfold Example.archive, Example.world_with in H. simpl in H.
  repeat (apply lookup_insert_Some in H as [[_ <-]|[_ H]]; [by vm_compute|]).
  apply lookup_singleton_Some in H as [_ <-]. by vm_compute.
Qed.

(** What [entire_db] returns is what [vstack] makes of the two tables. *)
Lemma entire_db_vstack (vstack : Table → Table → result Table) (w : world)
    (ast_table com_table : Table) :
  entire_db_tables w = Ok (ast_table, com_table) →
  entire_db vstack w = vstack ast_table com_table.
Proof. intros H. unfold entire_db. by rewrite H. Qed.

(** C5, as amended.  Whenever both files can be read in bulk, [entire_db]
    builds two tables of twenty columns each: the first seventeen fields of
    the schema (NO, the observation counts and dates, and the element block
    EPOCH .. SOLDAT), then DESIG, IREF and the name (ASTNAM or COMNAM); H and
    MOID are not among them.  Each table has one row per record of its
    file, and row [i] holds those fields of the record that [read_record]
    returns for any number that it locates at item [i + 1] of that file. *)
Theorem entire_db_rows (w : world) (adb cdb : ndarray) :
  asteroid_db w = Ok adb →
  comet_db w = Ok cdb →
  fits w →
  ∃ ast_table com_table,
    entire_db_tables w = Ok (ast_table, com_table)
    ∧ colnames ast_table
      = ["NO"; "NOBS"; "OBSFRST"; "OBSLAST"; "EPOCH"; "CALEPO"; "MA"; "W";
         "OM"; "IN"; "EC"; "A"; "QR"; "TP"; "TPCAL"; "TPFRAC"; "SOLDAT";
         "DESIG"; "IREF"; "ASTNAM"]
    ∧ colnames com_table
      = ["NO"; "NOBS"; "OBSFRST"; "OBSLAST"; "EPOCH"; "CALEPO"; "MA"; "W";
         "OM"; "IN"; "EC"; "A"; "QR"; "TP"; "TPCAL"; "TPFRAC"; "SOLDAT";
         "DESIG"; "IREF"; "COMNAM"]
    ∧ length (rows ast_table) = length adb
    ∧ length (rows com_table) = length cdb
    ∧ (∀ (i : nat) row r t,
         rows ast_table !! i = Some row →
         locate_record w r = Ok t →
         schema t = AST_DTYPE →
         phis_rec t = Z.of_nat (itemsize AST_DTYPE) * (Z.of_nat i + 1) →
         ∃ body kept,
           read_record w r = Ok [body]
           ∧ fields_of (colnames ast_table) body = Ok kept
           ∧ row = map snd kept)
    ∧ (∀ (i : nat) row r t,
         rows com_table !! i = Some row →
         locate_record w r = Ok t →
         schema t = COM_DTYPE →
         phis_rec t = Z.of_nat (itemsize COM_DTYPE) * (Z.of_nat i + 1) →
         ∃ body kept,
           read_record w r = Ok [body]
           ∧ fields_of (colnames com_table) body = Ok kept
           ∧ row = map snd kept).
Proof.
  intros Ha Hc Hfit.
  destruct (asteroid_db_rows w adb Ha) as (ac & an & Hac & Hadb).
  destruct (comet_db_rows w cdb Hc) as (cc & cn & Hcc & Hcdb).
  destruct (getfields_total (kept_names (names AST_DTYPE)) AST_DTYPE adb)
    as (ak & Hak & Hakl);
    [apply kept_names_AST_fields|rewrite Hadb; apply fread_decoded|].
  destruct (getfields_total (kept_names (names COM_DTYPE)) COM_DTYPE cdb)
    as (ck & Hck & Hckl);
    [apply kept_names_COM_fields|rewrite Hcdb; apply fread_decoded|].
  do 2 eexists. split.
  { unfold entire_db_tables. rewrite Ha, Hc. unfold mbind, result_bind.
    rewrite Hak, Hck. reflexivity. }
  split; [reflexivity|]. split; [reflexivity|].
  split; [by rewrite <- Hakl; apply length_map|].
  split; [by rewrite <- Hckl; apply length_map|].
  split.
  - intros i row r t Hrow Hl Hs Hp.
    apply Table_of_array_row in Hrow as (kept & Hk & ->).
    destruct (getfields_lookup _ _ _ _ _ Hak Hk) as (body & Hb & Hkept).
    exists body, kept. split; [|done].
    rewrite Hadb in Hb.
    apply (bulk_row_is_record w AST_DTYPE ac an i body r t); try done.
    apply locate_record_cases in Hl as [(-> & _)|(_ & Hs' & _)]; [done|].
    rewrite Hs in Hs'. by destruct AST_is_not_COM.
  - intros i row r t Hrow Hl Hs Hp.
    apply Table_of_array_row in Hrow as (kept & Hk & ->).
    destruct (getfields_lookup _ _ _ _ _ Hck Hk) as (body & Hb & Hkept).
    exists body, kept. split; [|done].
    rewrite Hcdb in Hb.
    apply (bulk_row_is_record w COM_DTYPE cc cn i body r t); try done.
    apply locate_record_cases in Hl as [(_ & Hs' & _)|(-> & _)]; [|done].
    rewrite Hs in Hs'. by destruct AST_is_not_COM.
Qed.

(** In the example archive the third row of the asteroid table holds the
    kept fields of the unnumbered record 101. *)
Lemma entire_db_rows_witness :
  ∃ ast_table com_table body kept,
    entire_db_tables Example.archive = Ok (ast_table, com_table)
    ∧ read_record Example.archive 101 = Ok [body]
    ∧ fields_of (colnames ast_table) body = Ok kept
    ∧ rows ast_table !! 2%nat = Some (map snd kept).
Proof.
  destruct (asteroid_db Example.archive) as [adb|] eqn:Ha;
    [|vm_compute in Ha; discriminate].
  destruct (comet_db Example.archive) as [cdb|] eqn:Hc;
    [|vm_compute in Hc; discriminate].
  destruct (entire_db_rows Example.archive adb cdb Ha Hc archive_fits)
    as (ast_table & com_table & Ht & _ & _ & _ & _ & Hast & _).
  assert (Ok (ast_table, com_table) = entire_db_tables Example.archive)
    as E by done.
  vm_compute in E. injection E as -> ->.
  destruct (Hast 2%nat _ 101 (Spec.unnumbered Example.archive 97 101)
              eq_refl) as (body & kept & Hr & Hk & Hrow);
    [vm_compute; reflexivity..|].
  do 2 eexists. exists body, kept. split; [exact Ht|]. split; [exact Hr|].
  split; [exact Hk|]. rewrite <- Hrow. reflexivity.
Defined.

(** C5 as stated fails: the tables built on the example archive do not
    have the columns that the specification lists; H and MOID are missing,
    and NOBS, DESIG and IREF are present. *)
Lemma entire_db_rows_counterexample :
  ∃ ast_table com_table,
    entire_db_tables Example.archive = Ok (ast_table, com_table)
    ∧ colnames ast_table ≠ Spec.merged_fields "ASTNAM"
    ∧ colnames com_table ≠ Spec.merged_fields "COMNAM"
    ∧ ¬ In "H" (colnames ast_table)
    ∧ ¬ In "MOID" (colnames ast_table)
    ∧ In "NOBS" (colnames ast_table)
    ∧ In "DESIG" (colnames ast_table)
    ∧ In "IREF" (colnames ast_table).
Proof.
  do 2 eexists. split; [vm_compute; reflexivity|].
  repeat split; vm_compute; intuition congruence.
Qed.

(** * Further properties of the module

    Behaviour of the functions around the ones above: the bulk readers, the
    errors of the readers, the path from a name to records and orbits, and
    the rest of the download. *)

(** ** Bulk reads *)

Lemma fread_length (d : dtype) (n : nat) :
  ∀ bs : list byte,
    (n * itemsize d ≤ length bs)%nat → length (fread d n bs) = n.
Proof.
  induction n as [|n IH]; intros bs H; simpl; [done|].
  destruct (Nat.leb_spec (itemsize d) (length bs)); [|lia].
  simpl. rewrite IH; [done|]. rewrite length_drop. lia.
Qed.

Lemma fread_row (d : dtype) (n : nat) (bs : list byte) (i : nat) :
  (i < length (fread d n bs))%nat →
  fread d n bs !! i
  = Some (decode d (take (itemsize d) (drop (i * itemsize d) bs))).
Proof.
  intros Hi. destruct (lookup_lt_is_Some_2 _ _ Hi) as [r Hr].
  pose proof Hr as Hr'. apply fread_lookup in Hr' as [<- _]. exact Hr.
Qed.

(** A read of all items from a position inside the file: as many whole
    items as fit in the bytes that are left, each decoded in place. *)
Lemma fromfile_all_rows (d : dtype) (c : list byte) (pos : nat) :
  (0 < itemsize d)%nat →
  (pos ≤ length c)%nat →
  ∃ rows,
    fromfile d (-1) c (Z.of_nat pos) = Ok rows
    ∧ length rows = ((length c - pos) / itemsize d)%nat
    ∧ ∀ i, (i < length rows)%nat →
        rows !! i
        = Some (decode d (take (itemsize d) (drop (pos + i * itemsize d) c))).
Proof.
  intros Hsz Hpos. unfold fromfile.
  change (-1 <? 0) with true. cbv iota.
  assert (Z.quot (Z.of_nat (length c) - Z.of_nat pos) (Z.of_nat (itemsize d))
          = Z.of_nat ((length c - pos) / itemsize d)) as ->.
  { rewrite Z.quot_div_nonneg by lia.
    rewrite Nat2Z.inj_div, Nat2Z.inj_sub by lia. done. }
  destruct (Z.ltb_spec (Z.of_nat ((length c - pos) / itemsize d)) 0); [lia|].
  rewrite !Nat2Z.id. eexists. split; [done|].
  assert (length (fread d ((length c - pos) / itemsize d) (drop pos c))
          = ((length c - pos) / itemsize d)%nat) as Hlen.
  { apply fread_length. rewrite length_drop, Nat.mul_comm.
    apply Nat.Div0.mul_div_le. }
  split; [exact Hlen|].
  intros i Hi. rewrite fread_row by done. by rewrite drop_drop.
Qed.

(** X1.  When the files hold at least their header record, [asteroid_db]
    and [comet_db] return one row for every whole record that follows the
    first 835 (976) bytes, row [i] decoded from the bytes at
    [835 * (i + 1)] ([976 * (i + 1)]); bytes at the end that do not fill a
    record are dropped without an error. *)
Theorem bulk_read_rows (w : world) (a c : list byte) :
  files w !! AST_DB_PATH w = Some a →
  files w !! COM_DB_PATH w = Some c →
  (835 ≤ length a)%nat →
  (976 ≤ length c)%nat →
  976 ≤ maxbytes w →
  ∃ adb cdb,
    asteroid_db w = Ok adb
    ∧ comet_db w = Ok cdb
    ∧ length adb = ((length a - 835) / 835)%nat
    ∧ length cdb = ((length c - 976) / 976)%nat
    ∧ (∀ i, (i < length adb)%nat →
         adb !! i
         = Some (decode AST_DTYPE (take 835 (drop (835 + i * 835) a))))
    ∧ (∀ i, (i < length cdb)%nat →
         cdb !! i
         = Some (decode COM_DTYPE (take 976 (drop (976 + i * 976) c)))).
Proof.
  intros Ha Hc Hla Hlc Hmax.
  destruct (fromfile_all_rows AST_DTYPE a 835) as (adb & Hadb & Hna & Hra);
    [vm_compute; lia|done|].
  destruct (fromfile_all_rows COM_DTYPE c 976) as (cdb & Hcdb & Hnc & Hrc);
    [vm_compute; lia|done|].
  exists adb, cdb. unfold asteroid_db, comet_db, open. rewrite Ha, Hc.
  rewrite !seek_ok by lia. simpl mbind.
  change (Z.of_nat 835) with 835 in Hadb. change (Z.of_nat 976) with 976 in Hcdb.
  repeat split; done.
Qed.

Lemma bulk_read_rows_witness :
  ∃ adb cdb,
    asteroid_db Example.archive = Ok adb
    ∧ comet_db Example.archive = Ok cdb
    ∧ length adb = 3%nat ∧ length cdb = 1%nat
    ∧ adb !! 2%nat = Some (decode AST_DTYPE (Example.body 835 101)).
Proof.
  destruct (bulk_read_rows Example.archive
              (Example.ast_file "       2" "     101") Example.com_file)
    as (adb & cdb & Ha & Hc & Hna & Hnc & Hra & _);
    [vm_compute; reflexivity..|vm_compute; lia|vm_compute; lia
    |by vm_compute|].
  exists adb, cdb. split; [exact Ha|]. split; [exact Hc|].
  split; [rewrite Hna; vm_compute; reflexivity|].
  split; [rewrite Hnc; vm_compute; reflexivity|].
  rewrite Hra by (rewrite Hna; vm_compute; lia).
  vm_compute. reflexivity.
Defined.

(** ** Errors of the readers *)

Lemma open_missing (w : world) (p : string) :
  files w !! p = None → p ∉ dirs w → through_file w p = false →
  open w p = Raise FileNotFoundError.
Proof.
  intros Hf Hd Ht. unfold open. rewrite Hf, Ht.
  by rewrite bool_decide_eq_false_2.
Qed.

(** An ancestor of a path is a prefix of it that stops before a
    separator. *)
Lemma ancestors_from_prefix (rest : list ascii) :
  ∀ (seen : list ascii) (a : string),
    In a (ancestors_from seen rest) →
    ∃ pre post,
      rest = pre ++ "/"%char :: post
      ∧ a = string_of_list_ascii (rev seen ++ pre).
Proof.
  induction rest as [|c rest IH]; intros seen a; simpl; [done|].
  assert (In a (ancestors_from (c :: seen) rest) →
          ∃ pre post, c :: rest = pre ++ "/"%char :: post
                      ∧ a = string_of_list_ascii (rev seen ++ pre)) as Hmore.
  { intros (pre & post & -> & ->)%IH. exists (c :: pre), post.
    split; [done|]. simpl. by rewrite <- app_assoc. }
  destruct (Ascii.eqb_spec c "/"%char) as [-> | _]; [|done].
  destruct seen as [|s seen]; [done|].
  intros [<- | Hin]; [|by apply Hmore].
  exists [], rest. split; [done|]. by rewrite app_nil_r.
Qed.

(** A separator of a path that ends in a name without separators lies
    before the name. *)
Lemma separator_before_name (pre post init name : list ascii) :
  pre ++ "/"%char :: post = init ++ name →
  ¬ In "/"%char name →
  ∃ post', init = pre ++ "/"%char :: post'.
Proof.
  revert init. induction pre as [|c pre IH]; intros [|x init]; simpl.
  - intros <- Hn. destruct Hn. by left.
  - intros [= <- _] _. eauto.
  - intros <- Hn. destruct Hn. right. apply in_app_iff. right. by left.
  - intros [= <- H] Hn. destruct (IH init H Hn) as [post' ->]. eauto.
Qed.

Lemma prefix_app (pre tail : list ascii) :
  String.prefix (string_of_list_ascii pre)
    (string_of_list_ascii (pre ++ tail)) = true.
Proof.
  induction pre as [|c pre IH]; simpl; [by destruct (string_of_list_ascii _)|].
  by destruct (ascii_dec c c).
Qed.

(** Where a name is joined to a directory. *)
Lemma join_name (d name : string) :
  startswith_sep name = false →
  ∃ init, ∀ name' : string,
    startswith_sep name' = false →
    list_ascii_of_string (join d name')
    = init ++ list_ascii_of_string name'.
Proof.
  intros _. unfold join.
  exists (list_ascii_of_string
            (if String.eqb d "" || endswith_sep d then d else d +:+ "/")).
  intros name' ->. destruct (_ || _); [apply list_ascii_of_string_app|].
  change (d +:+ "/" +:+ name') with (d +:+ ("/" +:+ name')).
  rewrite !list_ascii_of_string_app. by rewrite <- app_assoc.
Qed.

(** Next to an existing file no path leads through a regular file: what
    lies above the one lies above the other. *)
Lemma beside_a_file (w : world) (d name name' : string) (c : list byte) :
  startswith_sep name = false → startswith_sep name' = false →
  ¬ In "/"%char (list_ascii_of_string name) →
  files w !! join d name' = Some c →
  through_file w (join d name) = false.
Proof.
  intros Hn Hn' Hsep Hc.
  destruct (through_file w (join d name)) eqn:Ht; [|done]. exfalso.
  apply existsb_exists in Ht as (a & Ha & Hfile).
  apply ancestors_from_prefix in Ha as (pre & post & Hp & ->).
  destruct (join_name d name Hn) as [init Hjoin].
  rewrite (Hjoin name Hn) in Hp. symmetry in Hp.
  apply separator_before_name in Hp as [post' ->]; [|done].
  apply andb_true_iff in Hfile as [_ Hnone%negb_true_iff].
  assert (existsb (under (string_of_list_ascii (rev [] ++ pre)))
            (map fst (map_to_list (files w))) = true) as Hex; [|congruence].
  apply existsb_exists. exists (join d name'). split.
  - apply in_map_iff. exists (join d name', c). split; [done|].
    apply list_elem_of_In. by apply elem_of_map_to_list.
  - unfold under. simpl rev. simpl app.
    rewrite <- (string_of_list_ascii_of_string (join d name')).
    rewrite (Hjoin name' Hn'). rewrite <- app_assoc. simpl.
    replace (string_of_list_ascii pre +:+ "/")
      with (string_of_list_ascii (pre ++ ["/"%char])).
    + replace (pre ++ "/"%char :: post' ++ list_ascii_of_string name')
        with ((pre ++ ["/"%char]) ++ post' ++ list_ascii_of_string name')
        by (by rewrite <- app_assoc).
      apply prefix_app.
    + clear. induction pre as [|x pre IH]; simpl; [done|by rewrite IH].
Qed.

Lemma open_file (w : world) (p : string) (c : list byte) :
  files w !! p = Some c → open w p = Ok c.
Proof. intros H. unfold open. by rewrite H. Qed.

(** X2.  Before the archive is there (none of the three files, no
    directory in their place, and no regular file on the way to them),
    every reader stops with [FileNotFoundError], whatever the record number
    or the name: the bulk readers, the headers, a single record, its orbit
    table, the name search (even for a name that is no valid pattern) and
    the records of a name. *)
Theorem readers_before_download
    (Time : value → string → string → result value)
    (Table_rows : list (list value) → result Table)
    (w : world) (name : string) (r : Z) :
  files w !! AST_DB_PATH w = None → AST_DB_PATH w ∉ dirs w →
  through_file w (AST_DB_PATH w) = false →
  files w !! COM_DB_PATH w = None → COM_DB_PATH w ∉ dirs w →
  through_file w (COM_DB_PATH w) = false →
  files w !! join (DBS_LOCAL_PATH w) "dastcom.idx" = None →
  join (DBS_LOCAL_PATH w) "dastcom.idx" ∉ dirs w →
  through_file w (join (DBS_LOCAL_PATH w) "dastcom.idx") = false →
  asteroid_db w = Raise FileNotFoundError
  ∧ comet_db w = Raise FileNotFoundError
  ∧ entire_db_tables w = Raise FileNotFoundError
  ∧ read_headers w = Raise FileNotFoundError
  ∧ read_record w r = Raise FileNotFoundError
  ∧ orbit_from_record Time Table_rows w r = Raise FileNotFoundError
  ∧ string_record_from_name w name = Some (Raise FileNotFoundError)
  ∧ record_from_name w name = Some (Raise FileNotFoundError).
Proof.
  intros Ha Hda Hta Hc Hdc Htc Hi Hdi Hti.
  assert (asteroid_db w = Raise FileNotFoundError) as Hadb.
  { unfold asteroid_db. by rewrite open_missing. }
  assert (comet_db w = Raise FileNotFoundError) as Hcdb.
  { unfold comet_db. by rewrite open_missing. }
  assert (read_headers w = Raise FileNotFoundError) as Hh.
  { unfold read_headers. fold (AST_DB_PATH w).
    by rewrite (open_missing w (AST_DB_PATH w)). }
  assert (read_record w r = Raise FileNotFoundError) as Hr.
  { unfold read_record, locate_record. by rewrite Hh. }
  assert (string_record_from_name w name = Some (Raise FileNotFoundError))
    as Hs.
  { unfold string_record_from_name. by rewrite open_missing. }
  repeat split; try done.
  - unfold entire_db_tables. by rewrite Hadb.
  - unfold orbit_from_record. by rewrite Hr.
  - unfold record_from_name. by rewrite Hs.
Qed.

Lemma readers_before_download_witness :
  read_record Scenario.offline 433 = Raise FileNotFoundError
  ∧ record_from_name Scenario.offline "(" = Some (Raise FileNotFoundError).
Proof.
  destruct (readers_before_download Scenario.toy_Time
              Scenario.toy_Table_rows Scenario.offline "(" 433)
    as (_ & _ & _ & _ & Hr & _ & _ & Hn);
    [vm_compute; reflexivity|by vm_compute|vm_compute; reflexivity
    |vm_compute; reflexivity|by vm_compute|vm_compute; reflexivity
    |vm_compute; reflexivity|by vm_compute|vm_compute; reflexivity|].
  exact (conj Hr Hn).
Defined.

(** X3.  [read_record] reads both headers before it looks at the record
    number: without the comet file it stops with [FileNotFoundError] for
    every record, asteroids included, and so does the orbit table, while
    [asteroid_db] still returns the asteroid records. *)
Theorem read_record_needs_comet_file
    (Time : value → string → string → result value)
    (Table_rows : list (list value) → result Table)
    (w : world) (a : list byte) :
  files w !! AST_DB_PATH w = Some a →
  files w !! COM_DB_PATH w = None → COM_DB_PATH w ∉ dirs w →
  (835 ≤ length a)%nat →
  835 ≤ maxbytes w →
  (∀ r, read_record w r = Raise FileNotFoundError
        ∧ orbit_from_record Time Table_rows w r = Raise FileNotFoundError)
  ∧ ∃ adb, asteroid_db w = Ok adb
           ∧ length adb = ((length a - 835) / 835)%nat.
Proof.
  intros Ha Hc Hdc Hlen Hmax. split.
  - intros r.
    assert (read_headers w = Raise FileNotFoundError) as Hh.
    { unfold read_headers. fold (AST_DB_PATH w). fold (COM_DB_PATH w).
      rewrite (open_file w (AST_DB_PATH w) a Ha).
      rewrite (open_missing w (COM_DB_PATH w)); [|done..|].
      - unfold fromfile. reflexivity.
      - apply (beside_a_file w _ _ "dast5_le.dat" a); try done.
        vm_compute. intuition discriminate. }
    assert (read_record w r = Raise FileNotFoundError) as Hr.
    { unfold read_record, locate_record. by rewrite Hh. }
    split; [done|]. unfold orbit_from_record. by rewrite Hr.
  - destruct (fromfile_all_rows AST_DTYPE a 835) as (adb & Hadb & Hn & _);
      [vm_compute; lia|done|].
    exists adb. split; [|done].
    unfold asteroid_db. rewrite (open_file w _ a Ha).
    by rewrite seek_ok by lia.
Qed.

Lemma read_record_needs_comet_file_witness :
  read_record Scenario.no_comet 1 = Raise FileNotFoundError
  ∧ ∃ adb, asteroid_db Scenario.no_comet = Ok adb ∧ length adb = 3%nat.
Proof.
  destruct (read_record_needs_comet_file Scenario.toy_Time
              Scenario.toy_Table_rows Scenario.no_comet
              (Example.ast_file "       2" "     101"))
    as (Hr & adb & Hadb & Hn);
    [vm_compute; reflexivity..|by vm_compute|vm_compute; lia|by vm_compute|].
  split; [apply Hr|]. exists adb. split; [exact Hadb|].
  rewrite Hn. vm_compute. reflexivity.
Defined.

(** X4.  [read_record] never returns more than one record, and a record
    it returns has exactly the fields of the asteroid or of the comet
    schema, in the order of the schema. *)
Theorem read_record_at_most_one (w : world) (r : Z) (a : ndarray) :
  read_record w r = Ok a →
  a = []
  ∨ ∃ body, a = [body]
            ∧ (map fst body = names AST_DTYPE
               ∨ map fst body = names COM_DTYPE).
Proof.
  unfold read_record. destruct (locate_record w r) as [t|] eqn:Hl; [|done].
  simpl. destruct (open w (path t)) as [c|]; [|done]. simpl.
  destruct (seek w (phis_rec t)) as [pos|]; [|done]. simpl.
  rewrite fromfile_one. destruct (_ <=? _)%nat; intros [= <-]; [|by left].
  right. eexists. split; [done|]. rewrite names_decode.
  apply locate_record_cases in Hl as [(_ & -> & _)|(_ & -> & _)]; auto.
Qed.

Lemma read_record_at_most_one_witness :
  ∃ body, read_record Example.archive 201 = Ok [body]
          ∧ map fst body = names COM_DTYPE.
Proof.
  destruct (read_record_at_most_one Example.archive 201
              [decode COM_DTYPE (Example.body 976 201)])
    as [Hnil|(body & Hb & Hn)]; [vm_compute; reflexivity|discriminate|].
  exists body. injection Hb as <-.
  split; [vm_compute; reflexivity|]. vm_compute. reflexivity.
Defined.

(** X5.  The markers are parsed where the nested test needs them.  When
    ENDPT1 is not a number, the records above ENDPT2 are still resolved
    (into the comet file) and only the records up to ENDPT2 stop with
    [ValueError]; when ENDPT2 is not a number, every record does. *)
Theorem markers_parsed_lazily (w : world) (ast_header com_header : ndarray) :
  read_headers w = Ok (ast_header, com_header) →
  header_item "ENDPT1" ast_header ≫= int_of_value = Raise ValueError →
  (header_item "ENDPT2" ast_header ≫= int_of_value = Raise ValueError →
   ∀ r, read_record w r = Raise ValueError)
  ∧ (∀ ENDPT2 IBIAS2,
       header_item "ENDPT2" ast_header ≫= int_of_value = Ok ENDPT2 →
       header_item "IBIAS2" com_header ≫= as_int = Ok IBIAS2 →
       ∀ r, (r ≤ ENDPT2 → read_record w r = Raise ValueError)
            ∧ (ENDPT2 < r →
               locate_record w r = Ok (Spec.comet w IBIAS2 r))).
Proof.
  intros Hh H1. split.
  - intros H2 r. unfold read_record, locate_record. rewrite Hh. simpl.
    by rewrite H2.
  - intros ENDPT2 IBIAS2 H2 Hb r. split; intros Hr.
    + unfold read_record, locate_record. rewrite Hh. simpl. rewrite H2. simpl.
      destruct (Z.leb_spec r ENDPT2); [|lia]. by rewrite H1.
    + unfold locate_record. rewrite Hh. simpl. rewrite H2. simpl.
      destruct (Z.leb_spec r ENDPT2); [lia|]. by rewrite Hb.
Qed.

Lemma markers_parsed_lazily_witness :
  read_record Scenario.bad_endpt1 1 = Raise ValueError
  ∧ locate_record Scenario.bad_endpt1 201
    = Ok (Spec.comet Scenario.bad_endpt1 199 201).
Proof.
  destruct (read_headers Scenario.bad_endpt1) as [[ah ch]|] eqn:Hh;
    [|vm_compute in Hh; discriminate].
  assert (Ok (ah, ch) = read_headers Scenario.bad_endpt1) as E by done.
  vm_compute in E. injection E as -> ->.
  destruct (markers_parsed_lazily Scenario.bad_endpt1 _ _ Hh) as [_ H];
    [vm_compute; reflexivity|].
  assert (∀ r, (r ≤ 101 → read_record Scenario.bad_endpt1 r = Raise ValueError)
               ∧ (101 < r →
                  locate_record Scenario.bad_endpt1 r
                  = Ok (Spec.comet Scenario.bad_endpt1 199 r))) as H'.
  { apply (H 101 199); vm_compute; reflexivity. }
  split; [apply (H' 1); lia|apply (H' 201); lia].
Defined.

(** X6.  A comet file shorter than its header layout is noticed only when
    a comet is asked for: the records up to ENDPT2 are resolved as usual,
    the records above it stop with [IndexError]. *)
Theorem short_comet_header (w : world) (a c : list byte)
    (ENDPT1 ENDPT2 IBIAS0 IBIAS1 : Z) :
  files w !! AST_DB_PATH w = Some a →
  files w !! COM_DB_PATH w = Some c →
  (length c < itemsize com_header_dtype)%nat →
  header_item "ENDPT1" (fread ast_header_dtype 1 a) ≫= int_of_value
    = Ok ENDPT1 →
  header_item "ENDPT2" (fread ast_header_dtype 1 a) ≫= int_of_value
    = Ok ENDPT2 →
  header_item "IBIAS0" (fread ast_header_dtype 1 a) ≫= as_int = Ok IBIAS0 →
  header_item "IBIAS1" (fread ast_header_dtype 1 a) ≫= as_int = Ok IBIAS1 →
  ∀ r,
    (r ≤ ENDPT2 →
     locate_record w r
     = Ok (if r <=? ENDPT1 then Spec.numbered w IBIAS0 r
           else Spec.unnumbered w IBIAS1 r))
    ∧ (ENDPT2 < r → read_record w r = Raise IndexError).
Proof.
  intros Ha Hc Hshort H1 H2 H0 Hb1 r.
  pose proof (read_headers_of_files w a c Ha Hc) as Hh.
  rewrite (fread_short com_header_dtype 1 c Hshort) in Hh.
  split; intros Hr.
  - unfold locate_record. rewrite Hh. cbn [mbind result_bind].
    rewrite H2. cbn [mbind result_bind].
    destruct (Z.leb_spec r ENDPT2); [|lia]. rewrite H1.
    cbn [mbind result_bind].
    destruct (r <=? ENDPT1); [by rewrite H0|by rewrite Hb1].
  - unfold read_record, locate_record. rewrite Hh. cbn [mbind result_bind].
    rewrite H2. cbn [mbind result_bind].
    destruct (Z.leb_spec r ENDPT2); [lia|]. reflexivity.
Qed.

Lemma short_comet_header_witness :
  locate_record Scenario.short_comet 101
  = Ok (Spec.unnumbered Scenario.short_comet 97 101)
  ∧ read_record Scenario.short_comet 201 = Raise IndexError.
Proof.
  assert (∀ r,
            (r ≤ 101 →
             locate_record Scenario.short_comet r
             = Ok (if r <=? 2 then Spec.numbered Scenario.short_comet (-1) r
                   else Spec.unnumbered Scenario.short_comet 97 r))
            ∧ (101 < r → read_record Scenario.short_comet r = Raise IndexError))
    as H.
  { apply (short_comet_header Scenario.short_comet
             (Example.ast_file "       2" "     101")
             (take 10 Example.com_file));
      try (vm_compute; reflexivity). vm_compute. lia. }
  split; [apply (H 101); lia|apply (H 201); lia].
Defined.

Lemma fread_one_prefix (d : dtype) (a a' : list byte) :
  take (itemsize d) a = take (itemsize d) a' → fread d 1 a = fread d 1 a'.
Proof.
  intros H. simpl. rewrite H.
  apply (f_equal length) in H. rewrite !length_take in H.
  destruct (Nat.leb_spec (itemsize d) (length a)),
    (Nat.leb_spec (itemsize d) (length a')); try done; lia.
Qed.

(** X7.  Record resolution looks at the first 86 bytes of the asteroid
    file and the first 82 bytes of the comet file and at nothing else of
    the archive: two archives under the same home directory that agree on
    those bytes have the same headers and resolve every record number to
    the same file, offset and schema. *)
Theorem resolution_reads_headers_only (w1 w2 : world)
    (a1 a2 c1 c2 : list byte) :
  home w1 = home w2 →
  files w1 !! AST_DB_PATH w1 = Some a1 →
  files w2 !! AST_DB_PATH w2 = Some a2 →
  files w1 !! COM_DB_PATH w1 = Some c1 →
  files w2 !! COM_DB_PATH w2 = Some c2 →
  take 86 a1 = take 86 a2 →
  take 82 c1 = take 82 c2 →
  read_headers w1 = read_headers w2
  ∧ ∀ r, locate_record w1 r = locate_record w2 r.
Proof.
  intros Hhome Ha1 Ha2 Hc1 Hc2 Ha Hc.
  assert (read_headers w1 = read_headers w2) as Hh.
  { rewrite (read_headers_of_files w1 a1 c1), (read_headers_of_files w2 a2 c2)
      by done.
    by rewrite (fread_one_prefix ast_header_dtype a1 a2),
      (fread_one_prefix com_header_dtype c1 c2). }
  split; [done|]. intros r. unfold locate_record. rewrite Hh.
  unfold DBS_LOCAL_PATH, SBPY_LOCAL_PATH. by rewrite Hhome.
Qed.

Lemma resolution_reads_headers_only_witness :
  read_headers Example.archive = read_headers Scenario.headers_only
  ∧ ∀ r, locate_record Example.archive r
         = locate_record Scenario.headers_only r.
Proof.
  apply (resolution_reads_headers_only Example.archive Scenario.headers_only
           (Example.ast_file "       2" "     101")
           (take 86 (Example.ast_file "       2" "     101"))
           Example.com_file (take 82 Example.com_file));
    vm_compute; reflexivity.
Defined.

(** ** From a name to records *)

Lemma decimal_byte (c : ascii) :
  Re.is_decimal c = true →
  Py.is_digit (byte_of_ascii c) = true
  ∧ Py.digit_val (byte_of_ascii c) = Z.of_N (N_of_ascii c) - 48
  ∧ Py.is_space (byte_of_ascii c) = false
  ∧ Byte.eqb (byte_of_ascii c) "-"%byte = false
  ∧ Byte.eqb (byte_of_ascii c) "+"%byte = false
  ∧ Py.is_str_space c = false.
Proof.
  destruct c as [[] [] [] [] [] [] [] []]; vm_compute; intros H;
    try discriminate H; repeat split.
Qed.

Lemma int_digits_decimal (ds : list ascii) :
  ∀ acc : Z,
    forallb Re.is_decimal ds = true →
    Py.int_digits acc (map byte_of_ascii ds)
    = (fold_left (λ acc d, 10 * acc + (Z.of_N (N_of_ascii d) - 48)) ds acc,
       []).
Proof.
  induction ds as [|d ds IH]; intros acc H; [done|].
  simpl in H. apply andb_prop in H as [Hd Hds].
  destruct (decimal_byte d Hd) as (Hdig & Hval & _).
  cbn [map Py.int_digits fold_left]. rewrite Hdig, Hval. by apply IH.
Qed.

(** A run of digits is read as the number it writes. *)
Lemma int_str_decimal (ds : list ascii) :
  ds ≠ [] → forallb Re.is_decimal ds = true →
  Py.int_str ds = Ok (IndexLine.decimal_value ds).
Proof.
  destruct ds as [|d ds]; [done|]. intros _ H.
  simpl in H. apply andb_prop in H as [Hd Hds].
  destruct (decimal_byte d Hd) as (Hdig & Hval & Hsp & Hminus & Hplus & _).
  unfold Py.int_str, Py.int. cbn [map Py.lstrip_space].
  rewrite Hsp, Hminus, Hplus, Hdig, Hval.
  rewrite int_digits_decimal by done. reflexivity.
Qed.

Lemma lstrip_blanks (blanks rest : list ascii) :
  forallb Py.is_str_space blanks = true →
  Py.lstrip (blanks ++ rest) = Py.lstrip rest.
Proof.
  induction blanks as [|b blanks IH]; intros H; [done|].
  simpl in H. apply andb_prop in H as [Hb Hbs]. simpl. rewrite Hb. by apply IH.
Qed.

Lemma slice_first_six {A} (l : list A) :
  Py.slice None (Some 6) l = take 6 l.
Proof.
  unfold Py.slice, Py.slice_bound. change (6 <? 0) with false. cbv iota.
  rewrite Z.sub_0_r. change (Z.to_nat 0) with 0%nat. rewrite drop_0.
  destruct (Z.min_spec 6 (Z.of_nat (length l))) as [[H ->]|[H ->]].
  - reflexivity.
  - rewrite Nat2Z.id, firstn_all. symmetry. apply take_ge. lia.
Qed.

(** The number read off a line that carries it in its first six
    columns. *)
Lemma numbered_line_number (n : Z) (line : string) :
  IndexLine.numbered n line →
  Py.int_str
    (Py.lstrip (Py.slice None (Some 6) (list_ascii_of_string line)))
  = Ok n.
Proof.
  intros (blanks & digits & rest & -> & Hlen & Hb & Hne & Hd & <-).
  rewrite slice_first_six, app_assoc, take_app_length' by done.
  rewrite lstrip_blanks by done.
  destruct digits as [|d ds]; [done|].
  pose proof Hd as Hd'. simpl in Hd'. apply andb_prop in Hd' as [Hd1 _].
  destruct (decimal_byte d Hd1) as (_ & _ & _ & _ & _ & Hns).
  simpl Py.lstrip. rewrite Hns. by apply int_str_decimal.
Qed.

Lemma records_of_numbered_lines (ns : list Z) (lines : list string) :
  Forall2 IndexLine.numbered ns lines →
  ∀ records, records_of_lines lines records = Ok (records ++ ns).
Proof.
  induction 1 as [|n line ns lines Hn _ IH]; intros records; simpl.
  - by rewrite app_nil_r.
  - rewrite (numbered_line_number n line Hn). simpl. rewrite IH.
    by rewrite <- app_assoc.
Qed.

(** X8.  When the name search returns lines that each carry a record
    number right-justified in their first six columns, [record_from_name]
    returns those numbers, one per line and in the order of the lines. *)
Theorem record_from_name_numbers (w : world) (name : string)
    (lines : list string) (ns : list Z) :
  string_record_from_name w name = Some (Ok lines) →
  Forall2 IndexLine.numbered ns lines →
  record_from_name w name = Some (Ok ns).
Proof.
  intros Hs Hn. unfold record_from_name. rewrite Hs.
  by rewrite (records_of_numbered_lines ns lines Hn).
Qed.

Lemma record_from_name_numbers_witness :
  record_from_name Example.archive "Eros" = Some (Ok [2]).
Proof.
  apply (record_from_name_numbers Example.archive "Eros"
           ["     2 Eros 433" +:+ Example.LF]).
  - vm_compute. reflexivity.
  - constructor; [|constructor].
    exists (list_ascii_of_string "     "), (list_ascii_of_string "2"),
      (list_ascii_of_string (" Eros 433" +:+ Example.LF)).
    repeat split; try (vm_compute; reflexivity). discriminate.
Defined.

Lemma int_raises_ValueError (s : list byte) (e : exn) :
  Py.int s = Raise e → e = ValueError.
Proof.
  unfold Py.int.
  destruct (match Py.lstrip_space s with
            | [] => (false, [])
            | b :: r =>
                if Byte.eqb b "-"%byte then (true, r)
                else if Byte.eqb b "+"%byte then (false, r)
                else (false, Py.lstrip_space s)
            end) as [neg s2].
  destruct s2 as [|d r]; [congruence|].
  destruct (Py.is_digit d); [|congruence].
  destruct (Py.int_digits (Py.digit_val d) r) as [v rest].
  destruct (Py.lstrip_space rest); congruence.
Qed.

Lemma lstrip_all_blank (l : list ascii) :
  forallb Py.is_str_space l = true → Py.lstrip l = [].
Proof.
  intros H. rewrite <- (app_nil_r l). by rewrite lstrip_blanks.
Qed.

Lemma records_of_lines_blank (lines : list string) :
  Exists (λ line, IndexLine.blank_prefix line = true) lines →
  ∀ records, records_of_lines lines records = Raise ValueError.
Proof.
  induction 1 as [line lines Hb|line lines _ IH]; intros records; simpl.
  - unfold IndexLine.blank_prefix in Hb.
    rewrite slice_first_six, (lstrip_all_blank _ Hb). reflexivity.
  - destruct (Py.int_str _) as [n|e] eqn:Hn; simpl; [apply IH|].
    by rewrite (int_raises_ValueError _ e Hn).
Qed.

(** X9.  One returned line without a number in its first six columns (a
    heading, say, with only white space there) makes [record_from_name]
    stop with [ValueError]; the numbers of the other lines are lost. *)
Theorem record_from_name_blank_prefix (w : world) (name : string)
    (lines : list string) :
  string_record_from_name w name = Some (Ok lines) →
  Exists (λ line, IndexLine.blank_prefix line = true) lines →
  record_from_name w name = Some (Raise ValueError).
Proof.
  intros Hs Hb. unfold record_from_name. rewrite Hs.
  by rewrite (records_of_lines_blank lines Hb).
Qed.

Lemma record_from_name_blank_prefix_witness :
  record_from_name Scenario.headed "Eros" = Some (Raise ValueError).
Proof.
  apply (record_from_name_blank_prefix Scenario.headed "Eros"
           ["       Eros and others" +:+ Example.LF;
            "     2 Eros 433" +:+ Example.LF]).
  - vm_compute. reflexivity.
  - apply Exists_cons_hd. vm_compute. reflexivity.
Defined.

(** ** More on the name search *)

Lemma scan_index_sublist (name : string) (inF : list string) :
  ∀ lines found,
    scan_index name inF lines = Some (Ok found) →
    ∃ more, found = lines ++ more ∧ sublist more inF.
Proof.
  induction inF as [|line inF IH]; intros lines found H; simpl in H.
  - injection H as <-. exists []. split; [by rewrite app_nil_r|constructor].
  - destruct (Re.search _ _) as [[]|why|]; try done.
    + apply IH in H as (more & -> & Hsub). exists (line :: more).
      split; [by rewrite <- app_assoc|by constructor].
    + apply IH in H as (more & -> & Hsub). exists more.
      split; [done|by constructor].
Qed.

(** X10.  Whatever the query, the lines that the name search returns are
    lines of the index, in the order of the index and each at most as often
    as it occurs there: the search neither reorders nor invents lines. *)
Theorem name_search_sublist (w : world) (name : string)
    (lines : list string) :
  string_record_from_name w name = Some (Ok lines) →
  ∃ inF,
    files w !! join (DBS_LOCAL_PATH w) "dastcom.idx" = Some inF
    ∧ sublist lines (text_lines inF).
Proof.
  unfold string_record_from_name, open.
  destruct (files w !! join (DBS_LOCAL_PATH w) "dastcom.idx") as [inF|];
    [|by repeat case_match].
  intros (more & -> & Hsub)%scan_index_sublist. eauto.
Qed.

Lemma name_search_sublist_witness :
  sublist ["     2 Eros 433" +:+ Example.LF] (text_lines Example.idx_file).
Proof.
  destruct (name_search_sublist Example.archive "Eros"
              ["     2 Eros 433" +:+ Example.LF]) as (inF & Hf & Hsub);
    [vm_compute; reflexivity|].
  assert (Some inF = Some Example.idx_file) as [= ->].
  { rewrite <- Hf. vm_compute. reflexivity. }
  exact Hsub.
Defined.

Lemma compile_leading_repeat (c : ascii) (rest : string) :
  Re.is_repeat c = true →
  Re.compile ("\b" +:+ casefold (String c rest) +:+ "\b")
  = Re.PatternError nothing_to_repeat.
Proof.
  intros Hc. unfold Re.compile, casefold.
  rewrite !list_ascii_of_string_app, list_ascii_of_string_of_list_ascii.
  change (list_ascii_of_string "\b") with ["\"%char; "b"%char].
  cbn [list_ascii_of_string map app]. rewrite parse_loop_boundary.
  revert Hc. unfold Re.is_repeat.
  destruct (Ascii.eqb_spec c "*") as [->|_];
    [reflexivity|destruct (Ascii.eqb_spec c "+") as [->|_]];
    [reflexivity|destruct (Ascii.eqb_spec c "?") as [->|_]];
    [reflexivity|done].
Qed.

(** X11.  A name that begins with [*], [+] or [?] is never searched for:
    on every index with at least one line the search stops with
    [re.error] (nothing to repeat), whatever follows the first character,
    and so does [record_from_name]. *)
Theorem name_search_leading_repeat (w : world) (c : ascii) (rest : string)
    (inF : list byte) :
  Re.is_repeat c = true →
  files w !! join (DBS_LOCAL_PATH w) "dastcom.idx" = Some inF →
  text_lines inF ≠ [] →
  string_record_from_name w (String c rest)
  = Some (Raise (re_error nothing_to_repeat))
  ∧ record_from_name w (String c rest)
    = Some (Raise (re_error nothing_to_repeat)).
Proof.
  intros Hc Hf Hne.
  assert (string_record_from_name w (String c rest)
          = Some (Raise (re_error nothing_to_repeat))) as Hs.
  { rewrite (string_record_from_name_open w _ inF Hf).
    destruct (text_lines inF) as [|line lines]; [done|].
    apply scan_index_error. by apply compile_leading_repeat. }
  split; [done|]. unfold record_from_name. by rewrite Hs.
Qed.

Lemma name_search_leading_repeat_witness :
  string_record_from_name Example.archive "*ros"
  = Some (Raise (re_error nothing_to_repeat)).
Proof.
  apply (name_search_leading_repeat Example.archive "*" "ros"
           Example.idx_file);
    [vm_compute; reflexivity|vm_compute; reflexivity
    |vm_compute; discriminate].
Defined.

Lemma is_word_casefold (c : ascii) :
  Re.is_word (casefold_char c) = Re.is_word c.
Proof. destruct c as [[] [] [] [] [] [] [] []]; reflexivity. Qed.

Lemma boundary_after_nonword (c : ascii) (s : list ascii) (i : nat) :
  Re.is_word c = false → Re.boundary (c :: s) (S i) = Re.boundary s i.
Proof.
  intros Hc. unfold Re.boundary. destruct i as [|i]; [|reflexivity].
  unfold Re.word_before, Re.word_at at 1. simpl. by rewrite Hc.
Qed.

Lemma word_gives_boundary (s : list ascii) :
  existsb Re.is_word s = true →
  ∃ i, (i ≤ length s)%nat ∧ Re.boundary s i = true.
Proof.
  induction s as [|c s IH]; simpl; [done|].
  destruct (Re.is_word c) eqn:Hc; simpl.
  - intros _. exists 0%nat. split; [lia|].
    unfold Re.boundary, Re.word_before, Re.word_at. simpl. by rewrite Hc.
  - intros (i & Hi & Hb)%IH. exists (S i). split; [lia|].
    by rewrite boundary_after_nonword.
Qed.

Lemma word_at_word (s : list ascii) (i : nat) :
  Re.word_at s i = true → existsb Re.is_word s = true.
Proof.
  unfold Re.word_at. destruct (s !! i) as [c|] eqn:Hc; [|done].
  intros Hw. apply existsb_exists. exists c. split; [|done].
  apply list_elem_of_In. by eapply list_elem_of_lookup_2.
Qed.

Lemma boundary_gives_word (s : list ascii) (i : nat) :
  Re.boundary s i = true → existsb Re.is_word s = true.
Proof.
  unfold Re.boundary. destruct (Re.word_at s i) eqn:Ha.
  - intros _. by eapply word_at_word.
  - rewrite xorb_false_r. destruct i as [|i]; [done|]. simpl.
    apply word_at_word.
Qed.

Lemma some_boundary_iff_word (s : list ascii) :
  existsb (Re.boundary s) (seq 0 (S (length s))) = existsb Re.is_word s.
Proof.
  apply eq_true_iff_eq. split.
  - intros (i & _ & Hb)%existsb_exists. by eapply boundary_gives_word.
  - intros (i & Hi & Hb)%word_gives_boundary. apply existsb_exists.
    exists i. split; [|done]. apply in_seq. lia.
Qed.

Lemma whole_word_empty_query (line : string) :
  Spec.whole_word "" line = IndexLine.has_word line.
Proof.
  unfold Spec.whole_word, IndexLine.has_word.
  change (list_ascii_of_string (casefold "")) with (@nil ascii).
  rewrite (existsb_eq _ (Re.boundary (list_ascii_of_string (casefold line)))).
  - rewrite some_boundary_iff_word. unfold casefold.
    rewrite list_ascii_of_string_of_list_ascii.
    induction (list_ascii_of_string line) as [|c l IH]; [done|].
    simpl. by rewrite is_word_casefold, IH.
  - intros i. unfold Spec.whole_word_at. simpl. rewrite Nat.add_0_r.
    by destruct (Re.boundary _ i).
Qed.

(** X12.  The empty name is a query like any other: on an ASCII index the
    search returns exactly the lines that hold at least one word character
    (a letter, a digit or an underscore), and no error. *)
Theorem name_search_empty_name (w : world) (inF : list byte) :
  files w !! join (DBS_LOCAL_PATH w) "dastcom.idx" = Some inF →
  Re.ascii_bytes inF = true →
  string_record_from_name w ""
  = Some (Ok (List.filter IndexLine.has_word (text_lines inF))).
Proof.
  intros Hf _. rewrite (string_record_from_name_open w "" inF Hf).
  rewrite (scan_index_compiled "" _ _ (compile_literal "" eq_refl)). simpl.
  do 2 f_equal. apply filter_ext. intros line.
  rewrite <- whole_word_empty_query.
  unfold Spec.whole_word, Re.search_compiled.
  apply existsb_eq. intros i. apply matches_from_literal.
Qed.

Lemma name_search_empty_name_witness :
  string_record_from_name Example.archive ""
  = Some (Ok (text_lines Example.idx_file)).
Proof.
  etrans.
  - apply (name_search_empty_name Example.archive Example.idx_file);
      vm_compute; reflexivity.
  - vm_compute. reflexivity.
Defined.

(** ** From records to orbits *)

Section NameOrbitFacts.

Variable Time : value → string → string → result value.
Variable Table_rows : list (list value) → result Table.

(** The comprehension builds one orbit per record, in order. *)
Lemma orbits_of_records_all (w : world) (records : list Z)
    (orbits : list Table) :
  Forall2 (λ r orbit, orbit_from_record Time Table_rows w r = Ok orbit)
    records orbits →
  orbits_of_records Time Table_rows w records = Ok orbits.
Proof.
  induction 1 as [|r orbit records orbits Ho _ IH]; simpl; [done|].
  rewrite Ho. simpl. by rewrite IH.
Qed.

(** The comprehension stops at the first record without an orbit. *)
Lemma orbits_of_records_failure (w : world) (good rest : list Z) (r : Z)
    (e : exn) :
  Forall (λ r', ∃ orbit, orbit_from_record Time Table_rows w r' = Ok orbit)
    good →
  orbit_from_record Time Table_rows w r = Raise e →
  orbits_of_records Time Table_rows w (good ++ r :: rest) = Raise e.
Proof.
  intros Hgood Hr. induction Hgood as [|r' good [orbit Ho] _ IH]; simpl.
  - by rewrite Hr.
  - rewrite Ho. simpl. by rewrite IH.
Qed.

End NameOrbitFacts.

(** X13.  From a name to its orbits.  When the name search returns lines
    that carry the record numbers [ns] in their first six columns and
    [orbit_from_record] succeeds for each of these numbers,
    [orbit_from_name] hands to [Table] exactly the tables of these records,
    one per returned line and in the order of the lines, and returns what
    [Table] makes of them. *)
Theorem orbit_from_name_tables
    (Time : value → string → string → result value)
    (Table_rows : list (list value) → result Table)
    (Table_of_tables : list Table → result Table) (w : world)
    (name : string) (lines : list string) (ns : list Z)
    (orbits : list Table) :
  string_record_from_name w name = Some (Ok lines) →
  Forall2 IndexLine.numbered ns lines →
  Forall2 (λ r orbit, orbit_from_record Time Table_rows w r = Ok orbit)
    ns orbits →
  orbit_from_name Time Table_rows Table_of_tables w name
  = Some (Table_of_tables orbits)
  ∧ length orbits = length lines.
Proof.
  intros Hs Hn Ho. split.
  - unfold orbit_from_name, record_from_name. rewrite Hs.
    rewrite (records_of_numbered_lines ns lines Hn). simpl.
    by rewrite (orbits_of_records_all Time Table_rows w ns orbits Ho).
  - rewrite <- (Forall2_length _ _ _ Ho). apply (Forall2_length _ _ _ Hn).
Qed.

Lemma orbit_from_name_tables_witness :
  ∃ orbit1 orbit2 orbit3 orbit4,
    orbit_from_record Scenario.toy_Time Scenario.toy_Table_rows
      Example.archive 1 = Ok orbit1
    ∧ orbit_from_record Scenario.toy_Time Scenario.toy_Table_rows
        Example.archive 2 = Ok orbit2
    ∧ orbit_from_record Scenario.toy_Time Scenario.toy_Table_rows
        Example.archive 101 = Ok orbit3
    ∧ orbit_from_record Scenario.toy_Time Scenario.toy_Table_rows
        Example.archive 201 = Ok orbit4
    ∧ orbit_from_name Scenario.toy_Time Scenario.toy_Table_rows
        Scenario.toy_Table_of_tables Example.archive ""
      = Some (Scenario.toy_Table_of_tables [orbit1; orbit2; orbit3; orbit4]).
Proof.
  do 4 eexists. do 4 (split; [vm_compute; reflexivity|]).
  apply (orbit_from_name_tables Scenario.toy_Time Scenario.toy_Table_rows
           Scenario.toy_Table_of_tables Example.archive ""
           ["     1 Ceres" +:+ Example.LF; "     2 Eros 433" +:+ Example.LF;
            "   101 Aeros Erosion" +:+ Example.LF;
            "   201 abc" +:+ Example.LF]
           [1; 2; 101; 201]).
  - vm_compute. reflexivity.
  - repeat constructor.
    + exists (list_ascii_of_string "     "), (list_ascii_of_string "1"),
        (list_ascii_of_string (" Ceres" +:+ Example.LF)).
      repeat split; try (vm_compute; reflexivity). discriminate.
    + exists (list_ascii_of_string "     "), (list_ascii_of_string "2"),
        (list_ascii_of_string (" Eros 433" +:+ Example.LF)).
      repeat split; try (vm_compute; reflexivity). discriminate.
    + exists (list_ascii_of_string "   "), (list_ascii_of_string "101"),
        (list_ascii_of_string (" Aeros Erosion" +:+ Example.LF)).
      repeat split; try (vm_compute; reflexivity). discriminate.
    + exists (list_ascii_of_string "   "), (list_ascii_of_string "201"),
        (list_ascii_of_string (" abc" +:+ Example.LF)).
      repeat split; try (vm_compute; reflexivity). discriminate.
  - repeat constructor; vm_compute; reflexivity.
Defined.

(** X14.  All or nothing.  When the name search returns numbered lines and
    [orbit_from_record] fails for one of the numbers, all earlier ones
    having an orbit, [orbit_from_name] raises that failure: no table is
    built from the records that could be read, and [Table] is not called. *)
Theorem orbit_from_name_all_or_nothing
    (Time : value → string → string → result value)
    (Table_rows : list (list value) → result Table)
    (Table_of_tables : list Table → result Table) (w : world)
    (name : string) (lines : list string) (good rest : list Z) (r : Z)
    (e : exn) :
  string_record_from_name w name = Some (Ok lines) →
  Forall2 IndexLine.numbered (good ++ r :: rest) lines →
  Forall (λ r', ∃ orbit, orbit_from_record Time Table_rows w r' = Ok orbit)
    good →
  orbit_from_record Time Table_rows w r = Raise e →
  orbit_from_name Time Table_rows Table_of_tables w name = Some (Raise e).
Proof.
  intros Hs Hn Hgood Hr. unfold orbit_from_name, record_from_name.
  rewrite Hs. rewrite (records_of_numbered_lines _ lines Hn). simpl.
  by rewrite (orbits_of_records_failure Time Table_rows w good rest r e).
Qed.

Lemma orbit_from_name_all_or_nothing_witness :
  orbit_from_name Scenario.toy_Time Scenario.toy_Table_rows
    Scenario.toy_Table_of_tables Scenario.short_comet ""
  = Some (Raise IndexError).
Proof.
  apply (orbit_from_name_all_or_nothing Scenario.toy_Time
           Scenario.toy_Table_rows Scenario.toy_Table_of_tables
           Scenario.short_comet ""
           ["     1 Ceres" +:+ Example.LF; "     2 Eros 433" +:+ Example.LF;
            "   101 Aeros Erosion" +:+ Example.LF;
            "   201 abc" +:+ Example.LF]
           [1; 2; 101] [] 201 IndexError).
  - vm_compute. reflexivity.
  - repeat constructor.
    + exists (list_ascii_of_string "     "), (list_ascii_of_string "1"),
        (list_ascii_of_string (" Ceres" +:+ Example.LF)).
      repeat split; try (vm_compute; reflexivity). discriminate.
    + exists (list_ascii_of_string "     "), (list_ascii_of_string "2"),
        (list_ascii_of_string (" Eros 433" +:+ Example.LF)).
      repeat split; try (vm_compute; reflexivity). discriminate.
    + exists (list_ascii_of_string "   "), (list_ascii_of_string "101"),
        (list_ascii_of_string (" Aeros Erosion" +:+ Example.LF)).
      repeat split; try (vm_compute; reflexivity). discriminate.
    + exists (list_ascii_of_string "   "), (list_ascii_of_string "201"),
        (list_ascii_of_string (" abc" +:+ Example.LF)).
      repeat split; try (vm_compute; reflexivity). discriminate.
  - repeat constructor; eexists; vm_compute; reflexivity.
  - vm_compute. reflexivity.
Defined.

(** ** The download *)









(** Without a usable zip file and without an answer from the server no
    step of the download adds a file. *)
Lemma fetch_offline (w1 : world) (sbpy url zip : string) :
  ftp w1 !! url = None →
  ∃ e w2,
    match
      (if negb (isdir w1 sbpy) then makedirs sbpy w1 else (Ok (), w1))
    with
    | (Ok _, w1') => urlretrieve url zip w1'
    | (Raise e, w1') => (Raise e, w1')
    end = (Raise e, w2)
    ∧ files w2 = files w1
    ∧ (isdir w1 sbpy = true → e = URLError ∧ dirs w2 = dirs w1).
Proof.
  intros Hu. destruct (isdir w1 sbpy) eqn:Hs; cbn [negb].
  - exists URLError, w1. unfold urlretrieve. by rewrite Hu.
  - unfold makedirs. destruct (_ || _); [by exists FileExistsError, w1|].
    destruct (through_file w1 sbpy); [by exists NotADirectoryError, w1|].
    unfold urlretrieve. simpl. rewrite Hu. by eexists URLError, _.
Qed.

(** X16.  Offline, the download never succeeds and never adds a file.  When
    the sbpy directory holds no zip file that [is_zipfile] accepts and the
    server does not answer, [download_dastcom5] raises, whatever [update]
    is, and every file that exists afterwards existed before with the same
    content. *)
Theorem download_offline_fails
    (looks_like_zip : list byte → bool)
    (members : list byte → option (list (string * list byte)))
    (update : bool) (w : world) :
  is_zipfile looks_like_zip w (join (SBPY_LOCAL_PATH w) "dastcom5.zip")
  = false →
  ftp w !! (FTP_DB_URL +:+ "dastcom5.zip") = None →
  ∃ e w',
    download_dastcom5 looks_like_zip members update w = (Raise e, w')
    ∧ ∀ q body, files w' !! q = Some body → files w !! q = Some body.
Proof.
  intros Hz Hu. unfold download_dastcom5. cbv zeta.
  set (dir := join (SBPY_LOCAL_PATH w) "dastcom5").
  set (zip := join (SBPY_LOCAL_PATH w) "dastcom5.zip") in *.
  destruct (isdir w dir && negb update); [by exists FileExistsError, w|].
  set (w1 := if isdir w dir && update then rmtree dir w else w).
  assert (ftp w1 = ftp w) as Hftp
    by (subst w1; destruct (isdir w dir && update); reflexivity).
  assert (∀ q body, files w1 !! q = Some body → files w !! q = Some body)
    as Hfiles.
  { intros q body. subst w1. destruct (isdir w dir && update); [|done].
    simpl. by intros [Hq _]%map_lookup_filter_Some. }
  assert (is_zipfile looks_like_zip w1 zip = false) as Hz1.
  { unfold is_zipfile in *. destruct (files w1 !! zip) as [c|] eqn:Hc; [|done].
    apply Hfiles in Hc. by rewrite Hc in Hz. }
  clearbody w1. rewrite Hz1. cbn [negb].
  destruct (fetch_offline w1 (SBPY_LOCAL_PATH w)
              (FTP_DB_URL +:+ "dastcom5.zip") zip)
    as (e & w2 & -> & Hsame & _); [by rewrite Hftp|].
  exists e, w2. split; [done|]. intros q body. rewrite Hsame. apply Hfiles.
Qed.

Lemma download_offline_fails_witness :
  ∃ e w',
    download_dastcom5 Scenario.looks_like_toy Scenario.toy_members false
      Scenario.offline = (Raise e, w')
    ∧ ∀ q body, files w' !! q = Some body →
        files Scenario.offline !! q = Some body.
Proof.
  apply (download_offline_fails Scenario.looks_like_toy Scenario.toy_members
           false Scenario.offline); vm_compute; reflexivity.
Defined.

Lemma prefix_length (p q : string) :
  String.prefix p q = true → (String.length p ≤ String.length q)%nat.
Proof.
  revert q. induction p as [|a p IH]; intros [|b q]; simpl; try done; [lia|].
  destruct (ascii_dec a b); [|done]. intros H%IH. lia.
Qed.

Lemma append_length (a b : string) :
  String.length (a +:+ b) = (String.length a + String.length b)%nat.
Proof. induction a as [|c a IH]; simpl; [done|by rewrite IH]. Qed.

(** The sbpy directory is neither the [dastcom5] directory nor below it. *)
Lemma sbpy_outside_dastcom5 (sbpy : string) :
  sbpy ≠ join sbpy "dastcom5" ∧ under (join sbpy "dastcom5") sbpy = false.
Proof.
  assert (String.length sbpy < String.length (join sbpy "dastcom5"))%nat
    as Hlen.
  { unfold join. replace (startswith_sep "dastcom5") with false by done.
    destruct (_ || _); rewrite !append_length; simpl; lia. }
  split.
  - intros Heq. rewrite <- Heq in Hlen. lia.
  - unfold under. destruct (String.prefix _ _) eqn:Hp; [|done].
    apply prefix_length in Hp. rewrite append_length in Hp. lia.
Qed.

(** X17.  An update deletes before it fetches.  When the [dastcom5]
    directory exists, no usable zip file lies in the sbpy directory and the
    server does not answer, [download_dastcom5(update=True)] raises
    [URLError] after the old database was removed: no file below the
    [dastcom5] directory is left, and every other file is as it was. *)
Theorem update_offline_removes_database
    (looks_like_zip : list byte → bool)
    (members : list byte → option (list (string * list byte)))
    (w : world) :
  isdir w (SBPY_LOCAL_PATH w) = true →
  isdir w (join (SBPY_LOCAL_PATH w) "dastcom5") = true →
  is_zipfile looks_like_zip w (join (SBPY_LOCAL_PATH w) "dastcom5.zip")
  = false →
  ftp w !! (FTP_DB_URL +:+ "dastcom5.zip") = None →
  ∃ w',
    download_dastcom5 looks_like_zip members true w = (Raise URLError, w')
    ∧ (∀ q, under (join (SBPY_LOCAL_PATH w) "dastcom5") q = true →
            files w' !! q = None)
    ∧ (∀ q, under (join (SBPY_LOCAL_PATH w) "dastcom5") q = false →
            files w' !! q = files w !! q).
Proof.
  intros Hs Hd Hz Hu. unfold download_dastcom5. cbv zeta.
  set (dir := join (SBPY_LOCAL_PATH w) "dastcom5") in *.
  set (zip := join (SBPY_LOCAL_PATH w) "dastcom5.zip") in *.
  rewrite Hd. cbn [andb negb].
  assert (is_zipfile looks_like_zip (rmtree dir w) zip = false) as ->.
  { unfold is_zipfile in *. simpl.
    destruct (filter _ (files w) !! zip) as [c|] eqn:Hc; [|done].
    apply map_lookup_filter_Some in Hc as [Hc _]. by rewrite Hc in Hz. }
  cbn [negb].
  destruct (sbpy_outside_dastcom5 (SBPY_LOCAL_PATH w)) as [Hne Hout].
  assert (isdir (rmtree dir w) (SBPY_LOCAL_PATH w) = true) as Hs'.
  { unfold isdir in *. apply bool_decide_eq_true. simpl.
    apply elem_of_filter. split; [done|]. by apply bool_decide_eq_true in Hs. }
  destruct (fetch_offline (rmtree dir w) (SBPY_LOCAL_PATH w)
              (FTP_DB_URL +:+ "dastcom5.zip") zip)
    as (e & w2 & -> & Hsame & Herr); [done|].
  destruct (Herr Hs') as [-> _]. exists w2. split; [done|].
  rewrite Hsame. simpl. split; intros q Hq.
  - apply map_lookup_filter_None. right. intros body _. simpl. by rewrite Hq.
  - destruct (files w !! q) as [body|] eqn:Hb.
    + by apply map_lookup_filter_Some.
    + apply map_lookup_filter_None. by left.
Qed.

Lemma update_offline_removes_database_witness :
  ∃ w',
    download_dastcom5 Scenario.looks_like_toy Scenario.toy_members true
      Example.archive = (Raise URLError, w')
    ∧ files w' !! AST_DB_PATH Example.archive = None.
Proof.
  destruct (update_offline_removes_database Scenario.looks_like_toy
              Scenario.toy_members Example.archive)
    as (w' & Hd & Hgone & _); [vm_compute; reflexivity..|].
  exists w'. split; [exact Hd|]. apply Hgone. vm_compute. reflexivity.
Defined.
